(** * tennis-data: the match-charting point decoder and the match loader

    A shallow embedding of [tdata/match_charting/shot_sequence.py]
    ([ShotSequence.__init__], [ShotSequence.from_code]) and of
    [Dataset.turn_into_matches] from [tdata/datasets/dataset.py].

    Python values are modelled as follows.
    - A [str] is a [string]; each [ascii] stands for the code point below 256
      with that number.
    - A call that may raise returns a [result]: [Ok v] for a returned value,
      [Raise e] for an exception that escapes.
    - An argument that may be [None] is an [option].
    - A [dict] with string keys is a [gmap string V].
    - A generator is the finite trace of what it yields, closed either by its
      normal end or by the exception that stops it.

    The modules [serve.py], [rally.py], [enums.py], [exceptions.py],
    [match.py] and [parsed_string_score.py] are not part of the sources at
    hand.  What [from_code] and [turn_into_matches] call in them is a
    parameter of the embedding; [SpecModel] gives the serve and rally decoders
    as the specification describes them, and [Sample] fixes the tables for
    the examples. *)

From Stdlib Require Import String Ascii List Bool Arith Lia.
From stdpp Require Import base option list strings gmap.

Local Open Scope string_scope.

(** ** Python primitives *)

Module Py.

(** Outcome of a call: a value, or an escaping exception. *)
Inductive result (E A : Type) : Type :=
| Ok (a : A)
| Raise (e : E).
Arguments Ok {E A} a.
Arguments Raise {E A} e.

Definition bind {E A B} (m : result E A) (k : A -> result E B) : result E B :=
  match m with
  | Ok a => k a
  | Raise e => Raise e
  end.

(** Re-tags the exception of a callee. *)
Definition map_exn {E F A} (f : E -> F) (m : result E A) : result F A :=
  match m with
  | Ok a => Ok a
  | Raise e => Raise (f e)
  end.

Definition map_ok {E A B} (f : A -> B) (m : result E A) : result E B :=
  bind m (fun a => Ok (f a)).

(** [str.isspace] of one character, for the code points below 256:
    U+0009..U+000D, U+001C..U+0020, U+0085 and U+00A0. *)
Definition is_space (c : ascii) : bool :=
  let n := nat_of_ascii c in
  ((9 <=? n)%nat && (n <=? 13)%nat) || ((28 <=? n)%nat && (n <=? 32)%nat)
  || (n =? 133)%nat || (n =? 160)%nat.

(** [str.lstrip()] *)
Fixpoint lstrip (s : string) : string :=
  match s with
  | EmptyString => EmptyString
  | String c s' => if is_space c then lstrip s' else s
  end.

(** [str.rstrip()] *)
Fixpoint rstrip (s : string) : string :=
  match s with
  | EmptyString => EmptyString
  | String c s' =>
      match rstrip s' with
      | EmptyString => if is_space c then EmptyString else String c EmptyString
      | r => String c r
      end
  end.

(** [str.strip()] *)
Definition strip (s : string) : string := rstrip (lstrip s).

(** A string made of whitespace only (the empty string included). *)
Fixpoint is_blank (s : string) : bool :=
  match s with
  | EmptyString => true
  | String c s' => is_space c && is_blank s'
  end.

(** A string that does not start with whitespace. *)
Definition no_blank_head (s : string) : bool :=
  match s with
  | EmptyString => true
  | String c _ => negb (is_space c)
  end.

(** [x in l] for a list of strings. *)
Definition str_in (x : string) (l : list string) : bool :=
  bool_decide (x ∈ l).

(** [d[k]] on a dict: [KeyError] (built by [key_error]) when [k] is absent. *)
Definition getitem {E V} (key_error : string -> E) (d : gmap string V)
    (k : string) : result E V :=
  match d !! k with
  | Some v => Ok v
  | None => Raise (key_error k)
  end.

(** [k in d] on a dict. *)
Definition has_key {V} (k : string) (d : gmap string V) : bool :=
  bool_decide (is_Some (d !! k)).

(** What a generator does when it is run to its end. *)
Inductive trace (E A : Type) : Type :=
| Stop
| Yield (a : A) (rest : trace E A)
| Abort (e : E).
Arguments Stop {E A}.
Arguments Yield {E A} a rest.
Arguments Abort {E A} e.

(** The values a generator yields, in order. *)
Fixpoint yielded {E A} (t : trace E A) : list A :=
  match t with
  | Stop => []
  | Yield a rest => a :: yielded rest
  | Abort _ => []
  end.

End Py.

Import Py.

(** [x ← m; k] runs [m] and hands its value to [k]; an exception of [m]
    escapes. *)
#[global] Instance result_bind {E} : MBind (result E) := fun _ _ k m => bind m k.
#[global] Instance result_ret {E} : MRet (result E) := fun _ a => Ok a.

(** Unfolds the plumbing of [result]. *)
Ltac unfold_result :=
  unfold mbind, result_bind, mret, result_ret, map_ok, map_exn, bind in *.

(** ** tdata/match_charting/shot_sequence.py *)

Module Charting.

(** Exceptions that can escape [ShotSequence.from_code].  [E] is the type of
    what [Serve.from_code] and [Rally.from_code] raise, carried by [Raised];
    [AssertionError] is the failure of the [assert] in
    [ShotSequence.__init__]; [CodeParsingException] is the one [from_code]
    raises itself. *)
Inductive exn (E : Type) : Type :=
| CodeParsingException (msg : string)
| AttributeError (msg : string)
| AssertionError
| Raised (e : E).
Arguments CodeParsingException {E} msg.
Arguments AttributeError {E} msg.
Arguments AssertionError {E}.
Arguments Raised {E} e.

(** The message of the [AttributeError] that [None.strip()] raises. *)
Definition none_has_no_strip : string :=
  "'NoneType' object has no attribute 'strip'".

(** The attributes [ShotSequence.__init__] sets. *)
Record ShotSequence (Player Serve Rally : Type) : Type := mkShotSequence {
  server : Player;
  returner : Player;
  server_won : bool;
  rally : option Rally;
  not_coded : bool;
  first_serve : option Serve;
  second_serve : option Serve;
  server_lost_outright : bool;
  server_won_outright : bool
}.
Arguments mkShotSequence {Player Serve Rally}.
Arguments server {Player Serve Rally}.
Arguments returner {Player Serve Rally}.
Arguments server_won {Player Serve Rally}.
Arguments rally {Player Serve Rally}.
Arguments not_coded {Player Serve Rally}.
Arguments first_serve {Player Serve Rally}.
Arguments second_serve {Player Serve Rally}.
Arguments server_lost_outright {Player Serve Rally}.
Arguments server_won_outright {Player Serve Rally}.

(** The condition of the [assert] in [__init__], read off a built value. *)
Definition has_shape {Player Serve Rally}
    (seq : ShotSequence Player Serve Rally) : bool :=
  not_coded seq || server_lost_outright seq || server_won_outright seq
  || bool_decide (first_serve seq <> None).

Section Decoder.

(** Player identities. *)
Context {Player : Type}.

(** The classes of [serve.py] and [rally.py] with the methods [from_code]
    calls, and [[x.value for x in FaultEnum]] of [enums.py]. *)
Context {Serve Rally E : Type}.
Variable was_fault : Serve -> bool.
Variable had_rally : Serve -> bool.
Variable Serve_from_code : string -> Player -> bool -> result E (Serve * string).
Variable Rally_from_code : string -> Player -> Player -> result E Rally.
Variable possible_faults : list string.

(** [ShotSequence.__init__]; the keyword arguments come in the order of the
    signature. *)
Definition init (server returner : Player) (server_won : bool)
    (first_serve second_serve : option Serve) (rally : option Rally)
    (not_coded server_lost_outright server_won_outright : bool)
  : result (exn E) (ShotSequence Player Serve Rally) :=
  if not_coded || server_lost_outright || server_won_outright
     || bool_decide (first_serve <> None)
  then Ok (mkShotSequence server returner server_won rally not_coded
             first_serve second_serve server_lost_outright
             server_won_outright)
  else Raise AssertionError.

(** [rally = None], then
    [if serve.had_rally(): rally = Rally.from_code(remaining_code, ...)]. *)
Definition rally_after (serve : Serve) (remaining_code : string)
    (server returner : Player) : result (exn E) (option Rally) :=
  if had_rally serve
  then map_ok Some
         (map_exn Raised (Rally_from_code remaining_code server returner))
  else Ok None.

(** Lines 79-104 of [from_code]: the first serve, the second serve when the
    first was a fault, the rally, and the constructor call. *)
Definition parse_serves (server returner : Player) (server_won : bool)
    (first_code : string) (second_code : option string)
  : result (exn E) (ShotSequence Player Serve Rally) :=
  '(first_serve, remaining_code) ←
      map_exn Raised (Serve_from_code first_code server true);
  if was_fault first_serve then
    second_code ← match second_code with
                  | Some s => Ok (strip s)
                  | None => Raise (AttributeError none_has_no_strip)
                  end;
    '(second_serve, remaining_code) ←
        map_exn Raised (Serve_from_code second_code server false);
    rally ← rally_after second_serve remaining_code server returner;
    init server returner server_won
      (Some first_serve) (Some second_serve) rally false false false
  else
    rally ← rally_after first_serve remaining_code server returner;
    init server returner server_won
      (Some first_serve) None rally false false false.

(** [ShotSequence.from_code] *)
Definition from_code (server returner : Player) (server_won : bool)
    (first_code : string) (second_code : option string)
  : result (exn E) (ShotSequence Player Serve Rally) :=
  let first_code := strip first_code in
  if (String.length first_code =? 1)%nat then
    if str_in first_code ["S"; "R"] then
      init server returner server_won None None None true false false
    else if String.eqb first_code "P" then
      init server returner server_won None None None false true false
    else if String.eqb first_code "Q" then
      init server returner server_won None None None false false true
    else if str_in first_code possible_faults then
      parse_serves server returner server_won
        ("0" +:+ first_code) second_code
    else
      Raise (CodeParsingException
               ("Unknown single-character code: " +:+ first_code))
  else
    parse_serves server returner server_won first_code second_code.

(** The serve that ends the serving phase of a fully coded point: the second
    serve if the first was a fault, else the first. *)
Definition terminating_serve (seq : ShotSequence Player Serve Rally)
  : option Serve :=
  match first_serve seq with
  | Some s => if was_fault s then second_serve seq else Some s
  | None => None
  end.

End Decoder.

End Charting.

(** ** The serve and rally decoders, as the specification describes them *)

Module SpecModel.

(** Modelled from the spec: the error kinds of section 7
    ([exceptions.py] is absent), each with the offending raw string and the
    full code it was found in. *)
Inductive DecodeError : Type :=
| UnknownCode (offending code : string)
| MalformedSequence (offending code : string)
| MissingRequiredServe (code : string).

(** Modelled from the spec: a direction ([enums.py] is absent), a court zone
    named by its digit, or unknown. *)
Inductive Direction : Type :=
| UnknownDirection
| Zone (digit : ascii).

(** Modelled from the spec: the outcome of a serve (section 3; [enums.py] is
    absent). *)
Inductive ServeOutcome : Type :=
| Fault
| Ace
| ServiceWinner
| ReturnInPlay
| Unreturnable.

(** Modelled from the spec: the ways a serve is in play (section 4.3). *)
Inductive InPlay : Type :=
| InPlayAce
| InPlayServiceWinner
| InPlayReturned
| InPlayUnreturnable.

Definition outcome_of_in_play (k : InPlay) : ServeOutcome :=
  match k with
  | InPlayAce => Ace
  | InPlayServiceWinner => ServiceWinner
  | InPlayReturned => ReturnInPlay
  | InPlayUnreturnable => Unreturnable
  end.

(** Modelled from the spec: the attributes of a Serve (section 3; [serve.py]
    is absent).  A fault kind is named by its letter, the value of its
    [FaultEnum] member; [None] is the kind "none". *)
Record Serve (Player : Type) : Type := mkServe {
  serve_server : Player;
  is_first : bool;
  raw_code : string;
  fault_kind : option string;
  direction : Direction;
  outcome : ServeOutcome
}.
Arguments mkServe {Player}.
Arguments serve_server {Player}.
Arguments is_first {Player}.
Arguments raw_code {Player}.
Arguments fault_kind {Player}.
Arguments direction {Player}.
Arguments outcome {Player}.

(** Modelled from the spec: [Serve.was_fault] (section 4.3): whether
    [fault_kind] is not "none". *)
Definition was_fault {Player} (s : Serve Player) : bool :=
  bool_decide (fault_kind s <> None).

(** Modelled from the spec: [Serve.had_rally] (section 4.3): in play by a
    means that allows further shots. *)
Definition had_rally {Player} (s : Serve Player) : bool :=
  match outcome s with
  | ReturnInPlay => true
  | _ => false
  end.

(** Modelled from the spec: a Shot (section 3; [shot.py] is absent), with the
    player who hit it (section 4.2).  A shot type is named by its letter, a
    terminal outcome by its marker; [None] is the outcome "in play". *)
Record Shot (Player : Type) : Type := mkShot {
  shot_player : Player;
  shot_type : ascii;
  shot_direction : Direction;
  shot_outcome : option ascii
}.
Arguments mkShot {Player}.
Arguments shot_player {Player}.
Arguments shot_type {Player}.
Arguments shot_direction {Player}.
Arguments shot_outcome {Player}.

(** Modelled from the spec: a Rally (section 3; [rally.py] is absent), the
    shots in chronological order. *)
Record Rally (Player : Type) : Type := mkRally {
  shots : list (Shot Player)
}.
Arguments mkRally {Player}.
Arguments shots {Player}.

(** The decimal digits. *)
Definition is_digit (c : ascii) : bool :=
  let n := nat_of_ascii c in (48 <=? n)%nat && (n <=? 57)%nat.

(** Modelled from the spec: the direction a digit stands for; ['0'] is the
    placeholder of an unknown direction (section 4.4, step 2). *)
Definition direction_of_digit (d : ascii) : Direction :=
  if Ascii.eqb d "0" then UnknownDirection else Zone d.

Section Tables.

Context {Player : Type}.

(** The character tables of [enums.py], which the specification leaves to
    the charting notation: the fault letters, how the characters after the
    direction of a serve that is no fault classify it, and the letters of
    shot types, terminal outcomes and depths. *)
Variable possible_faults : list string.
Variable in_play_kind : string -> InPlay.
Variable is_shot_type : ascii -> bool.
Variable is_outcome_marker : ascii -> bool.
Variable is_depth_marker : ascii -> bool.

(** The serve that follows the direction [dir], read off [rest]. *)
Definition serve_after_direction (code : string) (server : Player)
    (first : bool) (dir : Direction) (rest : string)
  : Serve Player * string :=
  match rest with
  | String f rest' =>
      if str_in (String f "") possible_faults
      then (mkServe server first code (Some (String f "")) dir Fault, rest')
      else (mkServe server first code None dir
              (outcome_of_in_play (in_play_kind rest)), rest)
  | EmptyString =>
      (mkServe server first code None dir
         (outcome_of_in_play (in_play_kind rest)), rest)
  end.

(** Modelled from the spec: [Serve.from_code] (section 4.3; [serve.py] is
    absent).  A leading digit is the direction; a fault letter after it makes
    the serve a fault of that kind; a bare fault letter with no digit is a
    fault of that kind with unknown direction; anything else after a digit is
    a serve in play, and the characters after the digit are the rally input.
    A code with no serve in it fails. *)
Definition Serve_from_code (code : string) (server : Player) (first : bool)
  : result DecodeError (Serve Player * string) :=
  match code with
  | EmptyString => Raise (MissingRequiredServe code)
  | String d rest =>
      if is_digit d then
        Ok (serve_after_direction code server first (direction_of_digit d) rest)
      else if str_in (String d "") possible_faults then
        Ok (mkServe server first code (Some (String d "")) UnknownDirection
              Fault, rest)
      else Raise (UnknownCode (String d "") code)
  end.

(** Whether a shot already carries a terminal outcome. *)
Definition is_terminal (s : Shot Player) : bool :=
  bool_decide (shot_outcome s <> None).

(** Modelled from the spec: the token loop of [Rally.from_code]
    (section 4.2).  [cur] is the shot whose token is being read, hit by
    [hitter]; [rest] is what is left of the code [full].  A shot-type letter
    closes the token and opens the next shot, hit by the other player; a
    direction digit (1-9), a depth letter or an outcome marker is a modifier
    of [cur]; an outcome marker may only stand in the last token. *)
Fixpoint rally_shots (full : string) (hitter other : Player)
    (cur : Shot Player) (rest : string)
  : result DecodeError (list (Shot Player)) :=
  match rest with
  | EmptyString => Ok [cur]
  | String c rest' =>
      if is_shot_type c then
        if is_terminal cur then Raise (MalformedSequence rest full)
        else
          later ← rally_shots full other hitter
                    (mkShot other c UnknownDirection None) rest';
          Ok (cur :: later)
      else if is_digit c && negb (Ascii.eqb c "0") then
        rally_shots full hitter other
          (mkShot (shot_player cur) (shot_type cur) (Zone c)
             (shot_outcome cur)) rest'
      else if is_outcome_marker c then
        rally_shots full hitter other
          (mkShot (shot_player cur) (shot_type cur) (shot_direction cur)
             (Some c)) rest'
      else if is_depth_marker c then
        rally_shots full hitter other cur rest'
      else Raise (UnknownCode rest full)
  end.

(** Modelled from the spec: [Rally.from_code] (section 4.2; [rally.py] is
    absent).  The first shot is the returner's; the players alternate; the
    whole code is consumed or the decoding fails. *)
Definition Rally_from_code (code : string) (server returner : Player)
  : result DecodeError (Rally Player) :=
  match code with
  | EmptyString => Ok (mkRally [])
  | String c rest =>
      if is_shot_type c then
        map_ok mkRally
          (rally_shots code returner server
             (mkShot returner c UnknownDirection None) rest)
      else Raise (UnknownCode code code)
  end.

(** [ShotSequence.from_code] over these decoders. *)
Definition from_code :=
  Charting.from_code was_fault had_rally Serve_from_code Rally_from_code
    possible_faults.

End Tables.

End SpecModel.

(** ** tdata/datasets/dataset.py *)

Module Datasets.

(** Exceptions that can escape [turn_into_matches]: a [KeyError] of a row
    lookup, the [BadFormattingException] of [parsed_string_score.py], and
    whatever else the callees raise. *)
Inductive exn (E : Type) : Type :=
| KeyError (key : string)
| BadFormattingException
| OtherException (e : E).
Arguments KeyError {E} key.
Arguments BadFormattingException {E}.
Arguments OtherException {E} e.

Section TurnIntoMatches.

(** The values of a row's cells, and what goes wrong in the callees. *)
Context {V E : Type}.

(** [self.calculate_stats] (defined by the subclasses), the class
    [ParsedStringScore] with its attribute [sets], and the class
    [CompletedMatch] of [match.py] with the keyword arguments of the call:
    p1, p2, date, winner, stats, tournament_name, surface, tournament_round,
    odds, score.  [surface] and [odds] may be [None]; the odds are the two
    items of the dict display, in order. *)
Context {Stats Score SetScore Match : Type}.
Variable calculate_stats : V -> V -> gmap string V -> result (exn E) Stats.
Variable ParsedStringScore : V -> V -> V -> result (exn E) Score.
Variable sets : Score -> list SetScore.
Variable CompletedMatch :
  V -> V -> V -> V -> Stats -> V -> option V -> V -> option (list (V * V)) ->
  Score -> result (exn E) Match.

(** [row[k]] *)
Definition item (row : gmap string V) (k : string) : result (exn E) V :=
  getitem KeyError row k.

(** [self.calculate_stats(row['winner'], row['loser'], row)] *)
Definition row_stats (row : gmap string V) : result (exn E) Stats :=
  winner ← item row "winner";
  loser ← item row "loser";
  calculate_stats winner loser row.

(** [ParsedStringScore(row['score'], row['winner'], row['loser'])] *)
Definition row_score (row : gmap string V) : result (exn E) Score :=
  score ← item row "score";
  winner ← item row "winner";
  loser ← item row "loser";
  ParsedStringScore score winner loser.

(** Lines 189-204: the surface, the odds and the [CompletedMatch]. *)
Definition row_match (row : gmap string V) (stats : Stats) (score : Score)
  : result (exn E) Match :=
  let cur_surface := if negb (has_key "surface" row) then None
                     else row !! "surface" in
  odds ← (if has_key "odds_winner" row then
            winner ← item row "winner";
            winner_odds ← item row "winner_odds";
            loser ← item row "loser";
            loser_odds ← item row "loser_odds";
            Ok (Some [(winner, winner_odds); (loser, loser_odds)])
          else Ok None);
  p1 ← item row "winner";
  p2 ← item row "loser";
  date ← item row "start_date";
  winner ← item row "winner";
  tournament_name ← item row "tournament_name";
  tournament_round ← item row "round_number";
  CompletedMatch p1 p2 date winner stats tournament_name cur_surface
    tournament_round odds score.

(** [Dataset.turn_into_matches], over the records of the DataFrame. *)
Fixpoint turn_into_matches (records : list (gmap string V))
  : trace (exn E) Match :=
  match records with
  | [] => Stop
  | row :: records' =>
      match row_stats row with
      | Raise e => Abort e
      | Ok stats =>
          match row_score row with
          | Raise BadFormattingException => turn_into_matches records'
          | Raise e => Abort e
          | Ok score =>
              if (length (sets score) <? 2)%nat then turn_into_matches records'
              else
                match row_match row stats score with
                | Raise e => Abort e
                | Ok m => Yield m (turn_into_matches records')
                end
          end
      end
  end.

End TurnIntoMatches.

End Datasets.

(** ** Concrete tables and collaborators for the examples *)

Module Sample.

Import SpecModel.

(** Modelled from the spec: a sample of the fault-letter table, which the
    specification leaves to the charting notation ([FaultEnum] of [enums.py]
    is absent): net, wide, deep, wide and deep, foot fault, unknown. *)
Definition possible_faults : list string := ["n"; "w"; "d"; "x"; "g"; "e"].

(** Modelled from the spec: a sample classification of a serve that is no
    fault ([serve.py] is absent): with no further character (example 3 of
    section 8), or with the winner marker, an ace; with the forced-error
    marker, unreturnable; otherwise returned, and a rally follows. *)
Definition in_play_kind (rest : string) : InPlay :=
  match rest with
  | EmptyString => InPlayAce
  | String c _ =>
      if Ascii.eqb c "*" then InPlayAce
      else if Ascii.eqb c "#" then InPlayUnreturnable
      else InPlayReturned
  end.

(** Modelled from the spec: a sample of the shot-type letters ([enums.py]
    is absent): forehand, backhand, their slices, volleys, lobs and
    smashes. *)
Definition is_shot_type (c : ascii) : bool :=
  bool_decide (String c "" ∈ ["f"; "b"; "r"; "s"; "v"; "z"; "o"; "p"; "l"; "m"]).

(** Modelled from the spec: a sample of the terminal outcome markers
    ([enums.py] is absent): winner, forced error, unforced error. *)
Definition is_outcome_marker (c : ascii) : bool :=
  bool_decide (String c "" ∈ ["*"; "#"; "@"]).

(** Modelled from the spec: a sample of the depth letters ([enums.py] is
    absent). *)
Definition is_depth_marker (c : ascii) : bool :=
  bool_decide (String c "" ∈ ["n"; "w"; "d"; "x"]).

(** [ShotSequence.from_code] for players named by strings. *)
Definition from_code :=
  SpecModel.from_code (Player := string) possible_faults in_play_kind
    is_shot_type is_outcome_marker is_depth_marker.

(** [s.split(' ')], with [acc] the part being read. *)
Fixpoint split_blank (acc s : string) : list string :=
  match s with
  | EmptyString => [acc]
  | String c s' =>
      if Ascii.eqb c " " then acc :: split_blank "" s'
      else split_blank (acc +:+ String c "") s'
  end.

(** ['-' in s] *)
Fixpoint has_dash (s : string) : bool :=
  match s with
  | EmptyString => false
  | String c s' => Ascii.eqb c "-" || has_dash s'
  end.

(** Modelled from the spec: a sample score parser
    ([parsed_string_score.py] is absent): the sets of a score string are its
    blank-separated parts, each of which needs a dash; anything else is badly
    formatted. *)
Definition ParsedStringScore (score winner loser : string)
  : result (Datasets.exn unit) (list string) :=
  let parts := split_blank "" score in
  if forallb has_dash parts then Ok parts
  else Raise Datasets.BadFormattingException.

(** Modelled from the spec: a sample [CompletedMatch] ([match.py] is
    absent): the players, the date, the surface and the score it is called
    with. *)
Definition CompletedMatch (p1 p2 date winner : string) (stats : unit)
    (tournament_name : string) (surface : option string)
    (tournament_round : string) (odds : option (list (string * string)))
    (score : list string)
  : result (Datasets.exn unit)
      (string * string * string * option string * list string) :=
  Ok (p1, p2, date, surface, score).

(** Modelled from the spec: a sample [calculate_stats] (left to the
    subclasses of [Dataset]): no statistics. *)
Definition calculate_stats (winner loser : string) (row : gmap string string)
  : result (Datasets.exn unit) unit := Ok tt.

(** [Dataset.turn_into_matches] over these collaborators. *)
Definition turn_into_matches :=
  Datasets.turn_into_matches calculate_stats ParsedStringScore
    (fun score : list string => score) CompletedMatch.

(** A row of the DataFrame with the columns [turn_into_matches] reads. *)
Definition row (winner loser score : string) : gmap string string :=
  <["winner" := winner]> (<["loser" := loser]> (<["score" := score]>
  (<["start_date" := "2017-01-02"]> (<["tournament_name" := "Doha"]>
  (<["round_number" := "1"]> ∅))))).

(** A match in two sets. *)
Definition good_row : gmap string string := row "A" "B" "6-4 6-3".

(** A walkover: the score is no list of sets. *)
Definition bad_row : gmap string string := row "C" "D" "W/O".

(** A match abandoned after one set. *)
Definition short_row : gmap string string := row "E" "F" "6-4".

(** The point "n" then "4f1b2*": a net fault with no direction, a second
    serve to zone 4, a return and a winner. *)
Definition first_fault : Serve string :=
  mkServe "A" true "0n" (Some "n") UnknownDirection Fault.

Definition second_returned : Serve string :=
  mkServe "A" false "4f1b2*" None (Zone "4") ReturnInPlay.

Definition two_shots : Rally string :=
  mkRally [mkShot "B" "f" (Zone "1") None; mkShot "A" "b" (Zone "2") (Some "*"%char)].

Definition second_serve_point
  : Charting.ShotSequence string (Serve string) (Rally string) :=
  Charting.mkShotSequence "A" "B" true (Some two_shots) false
    (Some first_fault) (Some second_returned) false false.

(** Modelled from the spec: another sample classification of a serve that
    is no fault ([serve.py] is absent): every such serve counts as returned,
    also when no character follows it. *)
Definition always_returned (rest : string) : InPlay := InPlayReturned.

(** The point "4n" then "5" under that classification: a net fault, then a
    second serve to zone 5 with nothing after it, and the rally decoded from
    the empty code. *)
Definition net_fault : Serve string :=
  mkServe "A" true "4n" (Some "n") (Zone "4") Fault.

Definition bare_second_serve : Serve string :=
  mkServe "A" false "5" None (Zone "5") ReturnInPlay.

Definition empty_rally_point
  : Charting.ShotSequence string (Serve string) (Rally string) :=
  Charting.mkShotSequence "A" "B" true (Some (mkRally [])) false
    (Some net_fault) (Some bare_second_serve) false false.

(** The point "4f1b2*": the same rally after a first serve. *)
Definition first_returned : Serve string :=
  mkServe "A" true "4f1b2*" None (Zone "4") ReturnInPlay.

Definition first_serve_point
  : Charting.ShotSequence string (Serve string) (Rally string) :=
  Charting.mkShotSequence "A" "B" true (Some two_shots) false
    (Some first_returned) None false false.

End Sample.

(** ** ShotSequence.print_sequence *)

Module Printing.

Import Charting.

(** One call of [print]: the object handed to it. *)
Inductive printed (Serve Shot : Type) : Type :=
| PrintServe (s : Serve)
| PrintShot (s : Shot).
Arguments PrintServe {Serve Shot} s.
Arguments PrintShot {Serve Shot} s.

Section PrintSequence.

Context {Player Serve Rally Shot : Type}.

(** The attribute [shots] of a rally ([rally.py]). *)
Variable shots : Rally -> list Shot.

(** [ShotSequence.print_sequence]: the objects printed, in order. *)
Definition print_sequence (self : ShotSequence Player Serve Rally)
  : list (printed Serve Shot) :=
  (match first_serve self with
   | Some s => [PrintServe s]
   | None => []
   end)
  ++ (match second_serve self with
      | Some s => [PrintServe s]
      | None => []
      end)
  ++ (match rally self with
      | Some r => map PrintShot (shots r)
      | None => []
      end).

End PrintSequence.

End Printing.

(** ** Python's [datetime.date] *)

Module PyDate.

(** What the constructor and the arithmetic of [date] raise. *)
Inductive exn : Type :=
| ValueError
| OverflowError.

Definition MINYEAR : Z := 1.
Definition MAXYEAR : Z := 9999.

(** [date.max.toordinal()] *)
Definition MAXORDINAL : Z := 3652059.

(** [_is_leap] *)
Definition is_leap (year : Z) : bool :=
  (year mod 4 =? 0)%Z
  && (negb (year mod 100 =? 0)%Z || (year mod 400 =? 0)%Z).

(** [_days_before_year]: the days before January 1st of [year]. *)
Definition days_before_year (year : Z) : Z :=
  let y := (year - 1)%Z in
  (y * 365 + y / 4 - y / 100 + y / 400)%Z.

(** [_DAYS_IN_MONTH], with the -1 at index 0. *)
Definition DAYS_IN_MONTH : list Z :=
  [-1; 31; 28; 31; 30; 31; 30; 31; 31; 30; 31; 30; 31]%Z.

(** [_DAYS_BEFORE_MONTH], with the -1 at index 0. *)
Definition DAYS_BEFORE_MONTH : list Z :=
  [-1; 0; 31; 59; 90; 120; 151; 181; 212; 243; 273; 304; 334]%Z.

(** [table[i]] for an index within the table. *)
Definition at_index (table : list Z) (i : Z) : Z :=
  nth (Z.to_nat i) table 0%Z.

(** [_days_in_month] *)
Definition days_in_month (year month : Z) : Z :=
  if (month =? 2)%Z && is_leap year then 29%Z
  else at_index DAYS_IN_MONTH month.

(** [_days_before_month] *)
Definition days_before_month (year month : Z) : Z :=
  (at_index DAYS_BEFORE_MONTH month
   + (if (month >? 2)%Z && is_leap year then 1 else 0))%Z.

(** [_ymd2ord]: January 1st of year 1 is day 1. *)
Definition ymd2ord (year month day : Z) : Z :=
  (days_before_year year + days_before_month year month + day)%Z.

(** [_ord2ymd] *)
Definition ord2ymd (n : Z) : Z * Z * Z :=
  let n := (n - 1)%Z in
  let n400 := (n / 146097)%Z in
  let n := (n mod 146097)%Z in
  let year := (n400 * 400 + 1)%Z in
  let n100 := (n / 36524)%Z in
  let n := (n mod 36524)%Z in
  let n4 := (n / 1461)%Z in
  let n := (n mod 1461)%Z in
  let n1 := (n / 365)%Z in
  let n := (n mod 365)%Z in
  let year := (year + n100 * 100 + n4 * 4 + n1)%Z in
  if (n1 =? 4)%Z || (n100 =? 4)%Z then ((year - 1)%Z, 12%Z, 31%Z)
  else
    let leapyear := (n1 =? 3)%Z && (negb (n4 =? 24)%Z || (n100 =? 3)%Z) in
    let month := ((n + 50) / 32)%Z in
    let preceding :=
      (at_index DAYS_BEFORE_MONTH month
       + (if (month >? 2)%Z && leapyear then 1 else 0))%Z in
    if (preceding >? n)%Z then
      let month := (month - 1)%Z in
      let preceding :=
        (preceding
         - (at_index DAYS_IN_MONTH month
            + (if (month =? 2)%Z && leapyear then 1 else 0)))%Z in
      (year, month, (n - preceding + 1)%Z)
    else (year, month, (n - preceding + 1)%Z).

(** Whether an integer is converted to a C [int] (of 32 bits), as CPython's
    [date] does with each of its arguments before it looks at their
    ranges. *)
Definition fits_c_int (n : Z) : bool :=
  (-2147483648 <=? n)%Z && (n <=? 2147483647)%Z.

(** [date(year, month, day)] of CPython: a date is the ordinal
    [date.toordinal()] gives for it.  An argument that does not fit a C
    [int] gives [OverflowError]; then the fields are checked in turn, each
    giving [ValueError] when it is out of range. *)
Definition date (year month day : Z) : result exn Z :=
  if negb (fits_c_int year && fits_c_int month && fits_c_int day)
  then Raise OverflowError
  else if negb ((MINYEAR <=? year)%Z && (year <=? MAXYEAR)%Z)
  then Raise ValueError
  else if negb ((1 <=? month)%Z && (month <=? 12)%Z) then Raise ValueError
  else if negb ((1 <=? day)%Z && (day <=? days_in_month year month)%Z)
       then Raise ValueError
  else Ok (ymd2ord year month day).

(** [d + timedelta(days=days)] *)
Definition add_days (d days : Z) : result exn Z :=
  let o := (d + days)%Z in
  if (0 <? o)%Z && (o <=? MAXORDINAL)%Z then Ok o else Raise OverflowError.

(** The decimal digit [n mod 10]. *)
Definition digit (n : Z) : ascii :=
  ascii_of_nat (48 + Z.to_nat (n mod 10)).

(** ["%04d" % n] and ["%02d" % n], for [n] of at most that many digits. *)
Definition four_digits (n : Z) : string :=
  String (digit (n / 1000)) (String (digit (n / 100))
    (String (digit (n / 10)) (String (digit n) ""))).

Definition two_digits (n : Z) : string :=
  String (digit (n / 10)) (String (digit n) "").

(** ["%04d-%02d-%02d" % (year, month, day)] *)
Definition isoformat (year month day : Z) : string :=
  four_digits year +:+ "-" +:+ two_digits month +:+ "-" +:+ two_digits day.

(** [str(d)] *)
Definition str (d : Z) : string :=
  let '(year, month, day) := ord2ymd d in isoformat year month day.

End PyDate.

(** ** The queries of [Dataset] *)

Module Queries.

Import Datasets.

(** What is raised outside the row loop, besides the exceptions of
    [Datasets.exn]: the errors of [date], and what the collaborators
    raise. *)
Inductive foreign (E : Type) : Type :=
| DateError (e : PyDate.exn)
| Elsewhere (e : E).
Arguments DateError {E} e.
Arguments Elsewhere {E} e.

(** A call of the [date] arithmetic inside [Dataset]. *)
Definition of_date {E A} (m : result PyDate.exn A)
  : result (exn (foreign E)) A :=
  map_exn (fun e => OtherException (DateError e)) m.

(** The attributes [Dataset.__init__] sets: the two caches.  A tournament
    key is the tuple [(tournament_name, min_date, max_date)]. *)
Record Dataset (Avg : Type) : Type := mkDataset {
  tour_averages : gmap Z Avg;
  tournament_averages : gmap (string * option Z * option Z) Avg
}.
Arguments mkDataset {Avg}.
Arguments tour_averages {Avg}.
Arguments tournament_averages {Avg}.

(** [Dataset.__init__] *)
Definition init {Avg} : Dataset Avg := mkDataset ∅ ∅.

(** [itertools.chain] of generators: one after the other; an exception ends
    the chain. *)
Fixpoint trace_app {E A} (t1 t2 : trace E A) : trace E A :=
  match t1 with
  | Stop => t2
  | Yield a rest => Yield a (trace_app rest t2)
  | Abort e => Abort e
  end.

Definition chain {E A} (generators : list (trace E A)) : trace E A :=
  foldr trace_app Stop generators.

(** Whether a generator ends with an exception. *)
Fixpoint aborts {E A} (t : trace E A) : bool :=
  match t with
  | Stop => false
  | Yield _ rest => aborts rest
  | Abort _ => true
  end.

Section Dataset.

(** Cell values, frames (a DataFrame or a Series), columns of numbers,
    averages, and what the collaborators raise. *)
Context {V E DF Series Avg : Type}.
Context {Stats Score SetScore Match : Type}.

(** The collaborators of [turn_into_matches]. *)
Variable calculate_stats :
  V -> V -> gmap string V -> result (exn (foreign E)) Stats.
Variable ParsedStringScore : V -> V -> V -> result (exn (foreign E)) Score.
Variable sets : Score -> list SetScore.
Variable CompletedMatch :
  V -> V -> V -> V -> Stats -> V -> option V -> V -> option (list (V * V)) ->
  Score -> result (exn (foreign E)) Match.

(** The abstract methods [get_stats_df] and [get_player_df]. *)
Variable get_stats_df : result (exn (foreign E)) DF.
Variable get_player_df : result (exn (foreign E)) DF.

(** The pandas operations the methods use, each on the frame it is applied
    to:
    [df.set_index(column, drop=drop)], [df.sort_index()], [df[d:]], [df[:d]],
    [df[a:b]] with two strings,
    [df[(df.index < pd.Timestamp(d)) | (df['round_number'] < r)]],
    [len(df.shape)], [pd.DataFrame([df])], [df.loc[[label]]],
    [df.loc[label]], [pd.DataFrame()], [len(df)], [df.to_dict('records')],
    [df.xs(key, level=level)], [df[df['start_date'] > d]],
    [df[df['start_date'] < d]],
    [(df['winner_serve_points_won_pct'] +
      df['loser_serve_points_won_pct']) / 2] and [series.mean()]. *)
Variable set_index : DF -> string -> bool -> result (exn (foreign E)) DF.
Variable sort_index : DF -> result (exn (foreign E)) DF.
Variable slice_from : DF -> Z -> result (exn (foreign E)) DF.
Variable slice_to : DF -> Z -> result (exn (foreign E)) DF.
Variable slice_between : DF -> string -> string -> result (exn (foreign E)) DF.
Variable before_date_or_round : DF -> Z -> V -> result (exn (foreign E)) DF.
Variable shape_len : DF -> nat.
Variable frame_of_series : DF -> result (exn (foreign E)) DF.
Variable loc_list : DF -> V -> result (exn (foreign E)) DF.
Variable loc : DF -> string -> result (exn (foreign E)) DF.
Variable empty_frame : DF.
Variable len : DF -> nat.
Variable to_dict_records : DF -> result (exn (foreign E)) (list (gmap string V)).
Variable xs : DF -> V -> string -> result (exn (foreign E)) DF.
Variable after_date : DF -> Z -> result (exn (foreign E)) DF.
Variable before_date : DF -> Z -> result (exn (foreign E)) DF.
Variable serve_averages : DF -> result (exn (foreign E)) Series.
Variable mean : Series -> result (exn (foreign E)) Avg.

(** Lines 28-53 of [reduce_to_subset]: the date range. *)
Definition reduce_dates (df : DF) (min_date max_date : option Z)
    (before_round : option V) : result (exn (foreign E)) DF :=
  df ← (if bool_decide (min_date <> None) || bool_decide (max_date <> None)
        then df ← set_index df "start_date" false; sort_index df
        else Ok df);
  df ← (match min_date with
        | Some d => slice_from df d
        | None => Ok df
        end);
  match max_date with
  | Some d =>
      match before_round with
      | None =>
          last ← of_date (PyDate.add_days d (-1));
          slice_to df last
      | Some r =>
          df ← slice_to df d;
          before_date_or_round df d r
      end
  | None => Ok df
  end.

(** Lines 60-72 of [reduce_to_subset]: the surface; a [KeyError] of the
    lookup gives the empty DataFrame. *)
Definition reduce_surface (df : DF) (surface : option V)
  : result (exn (foreign E)) DF :=
  match surface with
  | Some s =>
      df ← set_index df "surface" false;
      match loc_list df s with
      | Raise (KeyError _) => Ok empty_frame
      | r => r
      end
  | None => Ok df
  end.

(** [Dataset.reduce_to_subset] *)
Definition reduce_to_subset (df : DF) (min_date max_date : option Z)
    (surface : option V) (before_round : option V)
  : result (exn (foreign E)) DF :=
  df ← reduce_dates df min_date max_date before_round;
  df ← (if (shape_len df =? 1)%nat then frame_of_series df else Ok df);
  reduce_surface df surface.

(** [Dataset.turn_into_matches] on a frame: the records are taken when the
    generator starts. *)
Definition turn_frame_into_matches (df : DF)
  : trace (exn (foreign E)) Match :=
  match to_dict_records df with
  | Raise e => Abort e
  | Ok records =>
      Datasets.turn_into_matches calculate_stats ParsedStringScore sets
        CompletedMatch records
  end.

(** [Dataset.get_matches_between]; the empty list it returns for an empty
    subset is the generator that stops at once. *)
Definition get_matches_between (min_date max_date : option Z)
    (surface : option V)
  : result (exn (foreign E)) (trace (exn (foreign E)) Match) :=
  subset ← get_stats_df;
  subset ← reduce_to_subset subset min_date max_date surface None;
  if (len subset =? 0)%nat then Ok Stop
  else Ok (turn_frame_into_matches subset).

(** The loop of [get_player_matches] over the levels: the generators
    appended to [all_matches]. *)
Fixpoint player_generators (by_players : DF) (player_name : V)
    (min_date max_date : option Z) (surface before_round : option V)
    (levels : list string)
  : result (exn (foreign E)) (list (trace (exn (foreign E)) Match)) :=
  match levels with
  | [] => Ok []
  | level :: levels' =>
      match xs by_players player_name level with
      | Raise (KeyError _) =>
          player_generators by_players player_name min_date max_date
            surface before_round levels'
      | Raise e => Raise e
      | Ok cur_matches =>
          subset ← reduce_to_subset cur_matches min_date max_date surface
                     before_round;
          later ← player_generators by_players player_name min_date max_date
                    surface before_round levels';
          Ok (turn_frame_into_matches subset :: later)
      end
  end.

(** [Dataset.get_player_matches] *)
Definition get_player_matches (player_name : V)
    (min_date max_date : option Z) (surface before_round : option V)
  : result (exn (foreign E)) (trace (exn (foreign E)) Match) :=
  by_players ← get_player_df;
  all_matches ← player_generators by_players player_name min_date max_date
                  surface before_round ["winner"; "loser"];
  Ok (chain all_matches).

(** Lines 146-161 of [get_tournament_serve_average]: the averages of the
    tournament's matches in the date range. *)
Definition tournament_serve_averages (tournament_name : string)
    (min_date max_date : option Z) : result (exn (foreign E)) Series :=
  full_df ← get_stats_df;
  tournament_df ← set_index full_df "tournament_name" true;
  relevant_matches ← loc tournament_df tournament_name;
  relevant_matches ← (match min_date with
                      | Some d => after_date relevant_matches d
                      | None => Ok relevant_matches
                      end);
  relevant_matches ← (match max_date with
                      | Some d => before_date relevant_matches d
                      | None => Ok relevant_matches
                      end);
  serve_averages relevant_matches.

(** [Dataset.get_tournament_serve_average]: what the call returns or raises,
    and the dataset after it. *)
Definition get_tournament_serve_average (self : Dataset Avg)
    (tournament_name : string) (min_date max_date : option Z)
  : result (exn (foreign E)) Avg * Dataset Avg :=
  let key := (tournament_name, min_date, max_date) in
  match tournament_averages self !! key with
  | Some v => (Ok v, self)
  | None =>
      match tournament_serve_averages tournament_name min_date max_date with
      | Raise e => (Raise e, self)
      | Ok averages =>
          match mean averages with
          | Raise e => (Raise e, self)
          | Ok m =>
              (mean averages,
               mkDataset (tour_averages self)
                 (<[key := m]> (tournament_averages self)))
          end
      end
  end.

(** The two bounds of the year's slice in [calculate_tour_average]:
    [str(date_version)] and [str(end_date)]. *)
Definition tour_year_bounds (year : Z) : result PyDate.exn (string * string) :=
  date_version ← PyDate.date year 1 1;
  end_date ← PyDate.add_days date_version 364;
  Ok (PyDate.str date_version, PyDate.str end_date).

(** Lines 256-267 of [calculate_tour_average]: the averages of the year's
    matches. *)
Definition tour_serve_averages (year : Z) : result (exn (foreign E)) Series :=
  subset ← get_stats_df;
  subset ← set_index subset "start_date" true;
  '(first, last) ← of_date (tour_year_bounds year);
  relevant ← slice_between subset first last;
  serve_averages relevant.

(** [Dataset.calculate_tour_average]: what the call returns or raises, and
    the dataset after it. *)
Definition calculate_tour_average (self : Dataset Avg) (year : Z)
  : result (exn (foreign E)) Avg * Dataset Avg :=
  match tour_averages self !! year with
  | Some v => (Ok v, self)
  | None =>
      match (averages ← tour_serve_averages year; mean averages) with
      | Raise e => (Raise e, self)
      | Ok result =>
          (Ok result,
           mkDataset (<[year := result]> (tour_averages self))
             (tournament_averages self))
      end
  end.

End Dataset.

End Queries.

(** ** Sample frames for the examples *)

Module SampleFrames.

Import Datasets Queries.

(** The exceptions of the sample collaborators, seen from [Dataset]. *)
Definition lift {A} (m : result (exn unit) A) : result (exn (foreign unit)) A :=
  match m with
  | Ok a => Ok a
  | Raise (KeyError k) => Raise (KeyError k)
  | Raise BadFormattingException => Raise BadFormattingException
  | Raise (OtherException e) => Raise (OtherException (Elsewhere e))
  end.

Definition calculate_stats (winner loser : string) (row : gmap string string)
  : result (exn (foreign unit)) unit :=
  lift (Sample.calculate_stats winner loser row).

Definition ParsedStringScore (score winner loser : string)
  : result (exn (foreign unit)) (list string) :=
  lift (Sample.ParsedStringScore score winner loser).

Definition CompletedMatch (p1 p2 date winner : string) (stats : unit)
    (tournament_name : string) (surface : option string)
    (tournament_round : string) (odds : option (list (string * string)))
    (score : list string)
  : result (exn (foreign unit))
      (string * string * string * option string * list string) :=
  lift (Sample.CompletedMatch p1 p2 date winner stats tournament_name surface
          tournament_round odds score).

(** A sample stand-in for a pandas frame: its rows, in the order of the
    index.  Dates are held as ISO strings, which compare as the dates do. *)
Definition cell (row : gmap string string) (column : string) : string :=
  default "" (row !! column).

(** The rows with [label] in [column]; a [KeyError] when there is none. *)
Definition rows_with (column : string) (df : list (gmap string string))
    (label : string) : result (exn (foreign unit)) (list (gmap string string)) :=
  match List.filter (fun row => String.eqb (cell row column) label) df with
  | [] => Raise (KeyError label)
  | rows => Ok rows
  end.

Definition set_index (df : list (gmap string string)) (column : string)
    (drop : bool) : result (exn (foreign unit)) (list (gmap string string)) :=
  if forallb (has_key column) df then Ok df else Raise (KeyError column).

Definition sort_index (df : list (gmap string string))
  : result (exn (foreign unit)) (list (gmap string string)) := Ok df.

Definition slice_between (df : list (gmap string string)) (first last : string)
  : result (exn (foreign unit)) (list (gmap string string)) :=
  Ok (List.filter
        (fun row => String.leb first (cell row "start_date")
                    && String.leb (cell row "start_date") last) df).

Definition slice_from (df : list (gmap string string)) (d : Z)
  : result (exn (foreign unit)) (list (gmap string string)) :=
  Ok (List.filter
        (fun row => String.leb (PyDate.str d) (cell row "start_date")) df).

Definition slice_to (df : list (gmap string string)) (d : Z)
  : result (exn (foreign unit)) (list (gmap string string)) :=
  Ok (List.filter
        (fun row => String.leb (cell row "start_date") (PyDate.str d)) df).

Definition before_date_or_round (df : list (gmap string string)) (d : Z)
    (round : string)
  : result (exn (foreign unit)) (list (gmap string string)) :=
  Ok (List.filter
        (fun row => String.ltb (cell row "start_date") (PyDate.str d)
                    || String.ltb (cell row "round_number") round) df).

Definition after_date (df : list (gmap string string)) (d : Z)
  : result (exn (foreign unit)) (list (gmap string string)) :=
  Ok (List.filter
        (fun row => String.ltb (PyDate.str d) (cell row "start_date")) df).

Definition before_date (df : list (gmap string string)) (d : Z)
  : result (exn (foreign unit)) (list (gmap string string)) :=
  Ok (List.filter
        (fun row => String.ltb (cell row "start_date") (PyDate.str d)) df).

Definition shape_len (df : list (gmap string string)) : nat := 2.

Definition frame_of_series (df : list (gmap string string))
  : result (exn (foreign unit)) (list (gmap string string)) := Ok df.

Definition loc_list := rows_with "surface".
Definition loc := rows_with "tournament_name".

Definition xs (df : list (gmap string string)) (key level : string)
  : result (exn (foreign unit)) (list (gmap string string)) :=
  rows_with level df key.

Definition empty_frame : list (gmap string string) := [].

Definition len (df : list (gmap string string)) : nat := length df.

Definition to_dict_records (df : list (gmap string string))
  : result (exn (foreign unit)) (list (gmap string string)) := Ok df.

(** The two percentages of each row; the sample average is the column it
    would be taken of. *)
Definition serve_averages (df : list (gmap string string))
  : result (exn (foreign unit)) (list (string * string)) :=
  if forallb (has_key "winner_serve_points_won_pct") df
     && forallb (has_key "loser_serve_points_won_pct") df
  then Ok (map (fun row => (cell row "winner_serve_points_won_pct",
                            cell row "loser_serve_points_won_pct")) df)
  else Raise (KeyError "winner_serve_points_won_pct").

Definition mean (averages : list (string * string))
  : result (exn (foreign unit)) (list (string * string)) := Ok averages.

(** Two matches of one tournament: A beat B on hard court, B beat C on
    clay. *)
Definition hard_row : gmap string string :=
  <["surface" := "Hard"]> (<["winner_serve_points_won_pct" := "0.65"]>
  (<["loser_serve_points_won_pct" := "0.58"]> (Sample.row "A" "B" "6-4 6-3"))).

Definition clay_row : gmap string string :=
  <["surface" := "Clay"]> (<["winner_serve_points_won_pct" := "0.61"]>
  (<["loser_serve_points_won_pct" := "0.55"]> (Sample.row "B" "C" "7-5 6-2"))).

Definition stats_df : list (gmap string string) := [hard_row; clay_row].

Definition get_stats_df
  : result (exn (foreign unit)) (list (gmap string string)) := Ok stats_df.

Definition get_player_df
  : result (exn (foreign unit)) (list (gmap string string)) := Ok stats_df.

(** The data source once it has gone away. *)
Definition get_stats_df_gone
  : result (exn (foreign unit)) (list (gmap string string)) :=
  Raise (OtherException (Elsewhere tt)).

(** A row with the column [odds_winner] and no column [winner_odds]. *)
Definition odds_row : gmap string string :=
  <["odds_winner" := "1.5"]> Sample.good_row.

(** The methods of [Dataset] over these frames. *)
Definition reduce_to_subset :=
  Queries.reduce_to_subset set_index sort_index slice_from slice_to
    before_date_or_round shape_len frame_of_series loc_list empty_frame.

Definition turn_frame_into_matches :=
  Queries.turn_frame_into_matches calculate_stats ParsedStringScore
    (fun score : list string => score) CompletedMatch to_dict_records.

Definition get_matches_between :=
  Queries.get_matches_between calculate_stats ParsedStringScore
    (fun score : list string => score) CompletedMatch get_stats_df set_index
    sort_index slice_from slice_to before_date_or_round shape_len
    frame_of_series loc_list empty_frame len to_dict_records.

Definition get_player_matches :=
  Queries.get_player_matches calculate_stats ParsedStringScore
    (fun score : list string => score) CompletedMatch get_player_df set_index
    sort_index slice_from slice_to before_date_or_round shape_len
    frame_of_series loc_list empty_frame to_dict_records xs.

Definition get_tournament_serve_average :=
  Queries.get_tournament_serve_average get_stats_df set_index loc after_date
    before_date serve_averages mean.

Definition calculate_tour_average :=
  Queries.calculate_tour_average get_stats_df set_index slice_between
    serve_averages mean.

(** The dataset after the average of Doha was asked for, and after the
    average of 2017 was. *)
Definition doha_average : list (string * string) :=
  [("0.65", "0.58"); ("0.61", "0.55")].

Definition after_doha : Dataset (list (string * string)) :=
  mkDataset ∅ (<[("Doha", None, None) := doha_average]> ∅).

Definition after_2017 : Dataset (list (string * string)) :=
  mkDataset (<[2017%Z := doha_average]> ∅) ∅.

End SampleFrames.

(** * Properties *)

(** ** Stripping *)

Module PyFacts.

Lemma lstrip_blank_app (w s : string) :
  is_blank w = true -> lstrip (w +:+ s) = lstrip s.
Proof.
  induction w as [|c w IH]; simpl; [reflexivity|].
  intros [Hc Hw]%andb_true_iff. rewrite Hc. auto.
Qed.

Lemma rstrip_blank (w : string) : is_blank w = true -> rstrip w = "".
Proof.
  induction w as [|c w IH]; simpl; [reflexivity|].
  intros [Hc Hw]%andb_true_iff. rewrite (IH Hw), Hc. reflexivity.
Qed.

Lemma rstrip_app_blank (s w : string) :
  is_blank w = true -> rstrip (s +:+ w) = rstrip s.
Proof.
  intros Hw. induction s as [|c s IH]; simpl.
  - apply rstrip_blank, Hw.
  - rewrite IH. reflexivity.
Qed.

Lemma lstrip_blank (w : string) : is_blank w = true -> lstrip w = "".
Proof.
  induction w as [|c w IH]; simpl; [reflexivity|].
  intros [Hc Hw]%andb_true_iff. rewrite Hc. auto.
Qed.

Lemma strip_app_blank (s w : string) :
  is_blank w = true -> strip (s +:+ w) = strip s.
Proof.
  intros Hw. unfold strip. induction s as [|c s IH].
  - change (rstrip (lstrip w) = EmptyString).
    rewrite (lstrip_blank w Hw). reflexivity.
  - change (rstrip (if is_space c then lstrip (s +:+ w) else String c (s +:+ w))
            = rstrip (if is_space c then lstrip s else String c s)).
    destruct (is_space c); [exact IH|].
    exact (rstrip_app_blank (String c s) w Hw).
Qed.

(** Whitespace around a string does not change what [strip] returns. *)
Lemma strip_pad (w1 s w2 : string) :
  is_blank w1 = true -> is_blank w2 = true ->
  strip (w1 +:+ s +:+ w2) = strip s.
Proof.
  intros H1 H2. unfold strip. rewrite (lstrip_blank_app _ _ H1).
  exact (strip_app_blank s w2 H2).
Qed.

Lemma lstrip_head (s : string) : no_blank_head (lstrip s) = true.
Proof.
  induction s as [|c s IH]; simpl; [reflexivity|].
  destruct (is_space c) eqn:Hc; [exact IH|]. simpl. rewrite Hc. reflexivity.
Qed.

Lemma rstrip_head (s : string) :
  no_blank_head s = true -> no_blank_head (rstrip s) = true.
Proof.
  destruct s as [|c s]; simpl; [reflexivity|].
  destruct (is_space c) eqn:Hc; [discriminate|]. intros _.
  destruct (rstrip s); simpl; rewrite Hc; reflexivity.
Qed.

Lemma lstrip_fixed (s : string) : no_blank_head s = true -> lstrip s = s.
Proof.
  destruct s as [|c s]; simpl; [reflexivity|].
  destruct (is_space c); [discriminate|reflexivity].
Qed.

Lemma rstrip_idem (s : string) : rstrip (rstrip s) = rstrip s.
Proof.
  induction s as [|c s IH]; simpl; [reflexivity|].
  destruct (rstrip s) as [|d r] eqn:Hr.
  - destruct (is_space c) eqn:Hc; simpl; [reflexivity|].
    rewrite Hc. reflexivity.
  - change (rstrip (String c (String d r))) with
      (match rstrip (String d r) with
       | EmptyString => if is_space c then EmptyString else String c EmptyString
       | r' => String c r'
       end).
    rewrite IH. reflexivity.
Qed.

(** [strip] is idempotent. *)
Lemma strip_idem (s : string) : strip (strip s) = strip s.
Proof.
  unfold strip.
  rewrite (lstrip_fixed (rstrip (lstrip s))).
  - apply rstrip_idem.
  - apply rstrip_head, lstrip_head.
Qed.

Lemma strip_single (c : ascii) :
  is_space c = false -> strip (String c "") = String c "".
Proof. intros Hc. unfold strip. simpl. rewrite Hc. simpl. rewrite Hc. reflexivity. Qed.

(** A string that strips to one character strips to a non-blank one. *)
Lemma strip_single_inv (s : string) (c : ascii) :
  strip s = String c "" -> is_space c = false.
Proof.
  intros Hs. pose proof (rstrip_head _ (lstrip_head s)) as Hh.
  fold (strip s) in Hh. rewrite Hs in Hh. simpl in Hh.
  destruct (is_space c); [discriminate|reflexivity].
Qed.

Lemma str_in_true (x : string) (l : list string) : str_in x l = true <-> x ∈ l.
Proof. unfold str_in. apply bool_decide_eq_true. Qed.

Lemma str_in_false (x : string) (l : list string) : str_in x l = false <-> x ∉ l.
Proof. unfold str_in. apply bool_decide_eq_false. Qed.

End PyFacts.

(** ** The point decoder *)

Module ChartingFacts.

Import Charting PyFacts.

Section Decoder.

Context {Player Serve Rally E : Type}.
Variable was_fault : Serve -> bool.
Variable had_rally : Serve -> bool.
Variable Serve_from_code : string -> Player -> bool -> result E (Serve * string).
Variable Rally_from_code : string -> Player -> Player -> result E Rally.
Variable possible_faults : list string.

Local Abbreviation init := (@Charting.init Player Serve Rally E).
Local Abbreviation rally_after :=
  (Charting.rally_after had_rally Rally_from_code).
Local Abbreviation parse_serves :=
  (Charting.parse_serves was_fault had_rally Serve_from_code Rally_from_code).
Local Abbreviation from_code :=
  (Charting.from_code was_fault had_rally Serve_from_code Rally_from_code
     possible_faults).
Local Abbreviation terminating_serve :=
  (@Charting.terminating_serve Player Serve Rally was_fault).

(** *** The constructor *)

Lemma init_ok (s r : Player) (w : bool) (fs ss : option Serve)
    (rl : option Rally) (nc lo wo : bool) seq :
  init s r w fs ss rl nc lo wo = Ok seq ->
  seq = mkShotSequence s r w rl nc fs ss lo wo /\ has_shape seq = true.
Proof.
  unfold Charting.init.
  destruct (nc || lo || wo || bool_decide (fs <> None)) eqn:Hc; [|discriminate].
  intros [= <-]. split; [reflexivity|exact Hc].
Qed.

Lemma init_with_serve (s r : Player) (w : bool) (fs : Serve)
    (ss : option Serve) (rl : option Rally) :
  init s r w (Some fs) ss rl false false false
  = Ok (mkShotSequence s r w rl false (Some fs) ss false false).
Proof. reflexivity. Qed.

(** *** The rally after a serve *)

Lemma rally_after_some (sv : Serve) (rem : string) (s r : Player) (rl : Rally) :
  rally_after sv rem s r = Ok (Some rl) <->
  had_rally sv = true /\ Rally_from_code rem s r = Ok rl.
Proof.
  unfold Charting.rally_after. unfold_result.
  destruct (had_rally sv); [|split; [discriminate|intros [? _]; discriminate]].
  destruct (Rally_from_code rem s r) as [rl'|e]; split.
  - intros [= ->]. auto.
  - intros [_ [= ->]]. reflexivity.
  - discriminate.
  - intros [_ ?]. discriminate.
Qed.

Lemma rally_after_none (sv : Serve) (rem : string) (s r : Player) :
  rally_after sv rem s r = Ok None <-> had_rally sv = false.
Proof.
  unfold Charting.rally_after. unfold_result.
  destruct (had_rally sv); [|split; reflexivity].
  destruct (Rally_from_code rem s r); split; discriminate.
Qed.

Lemma rally_after_iff (sv : Serve) (rem : string) (s r : Player)
    (ro : option Rally) :
  rally_after sv rem s r = Ok ro -> (had_rally sv = true <-> ro <> None).
Proof.
  destruct ro as [rl|]; intros H.
  - apply rally_after_some in H as [H _]. split; [discriminate|auto].
  - apply rally_after_none in H. rewrite H. split; [discriminate|congruence].
Qed.

Lemma rally_after_no_assertion (sv : Serve) (rem : string) (s r : Player) e :
  rally_after sv rem s r = Raise e -> exists e', e = Raised e'.
Proof.
  unfold Charting.rally_after. unfold_result.
  destruct (had_rally sv); [|discriminate].
  destruct (Rally_from_code rem s r); [discriminate|].
  intros [= <-]. eauto.
Qed.

(** *** Lines 79-104 *)

(** What a successful run of the two-serve part has done. *)
Lemma parse_serves_ok (s r : Player) (w : bool) (code : string)
    (sc : option string) seq :
  parse_serves s r w code sc = Ok seq ->
  exists fs rem,
    Serve_from_code code s true = Ok (fs, rem) /\
    seq = mkShotSequence s r w (rally seq) false (Some fs) (second_serve seq)
            false false /\
    ((was_fault fs = true /\
      exists code2 ss rem2,
        sc = Some code2 /\
        Serve_from_code (strip code2) s false = Ok (ss, rem2) /\
        second_serve seq = Some ss /\
        rally_after ss rem2 s r = Ok (rally seq))
     \/
     (was_fault fs = false /\
      second_serve seq = None /\
      rally_after fs rem s r = Ok (rally seq))).
Proof.
  unfold Charting.parse_serves. unfold_result.
  destruct (Serve_from_code code s true) as [[fs rem]|e] eqn:H1; [|discriminate].
  intros H. exists fs, rem. split; [reflexivity|].
  destruct (was_fault fs) eqn:Hf.
  - destruct sc as [code2|]; [|discriminate].
    destruct (Serve_from_code (strip code2) s false) as [[ss rem2]|e] eqn:H2;
      [|discriminate].
    fold (rally_after ss rem2 s r) in H.
    destruct (rally_after ss rem2 s r) as [ro|e] eqn:H3; [|discriminate].
    rewrite init_with_serve in H. injection H as <-. simpl.
    split; [reflexivity|]. left. split; [reflexivity|].
    exists code2, ss, rem2. auto.
  - fold (rally_after fs rem s r) in H.
    destruct (rally_after fs rem s r) as [ro|e] eqn:H3; [|discriminate].
    rewrite init_with_serve in H. injection H as <-. simpl.
    split; [reflexivity|]. right. auto.
Qed.

(** The exceptions of the two-serve part: never the assertion of the
    constructor, never the exception [from_code] raises itself. *)
Lemma parse_serves_raise (s r : Player) (w : bool) (code : string)
    (sc : option string) e :
  parse_serves s r w code sc = Raise e ->
  (exists e', e = Raised e') \/ (e = AttributeError none_has_no_strip /\ sc = None).
Proof.
  unfold Charting.parse_serves. unfold_result.
  destruct (Serve_from_code code s true) as [[fs rem]|e1];
    [|intros [= <-]; eauto].
  destruct (was_fault fs).
  - destruct sc as [code2|]; [|intros [= <-]; auto].
    destruct (Serve_from_code (strip code2) s false) as [[ss rem2]|e2];
      [|intros [= <-]; eauto].
    fold (rally_after ss rem2 s r).
    destruct (rally_after ss rem2 s r) as [ro|e3] eqn:H3.
    + rewrite init_with_serve. discriminate.
    + intros [= <-]. left. eapply rally_after_no_assertion, H3.
  - fold (rally_after fs rem s r).
    destruct (rally_after fs rem s r) as [ro|e3] eqn:H3.
    + rewrite init_with_serve. discriminate.
    + intros [= <-]. left. eapply rally_after_no_assertion, H3.
Qed.

(** With a first serve that is no fault, the second code is not looked at. *)
Lemma parse_serves_second_code_unused (s r : Player) (w : bool)
    (code : string) (fs : Serve) (rem : string) (sc1 sc2 : option string) :
  Serve_from_code code s true = Ok (fs, rem) -> was_fault fs = false ->
  parse_serves s r w code sc1 = parse_serves s r w code sc2.
Proof.
  intros H1 Hf. unfold Charting.parse_serves. unfold_result.
  rewrite H1, Hf. reflexivity.
Qed.

(** The second code only matters through what [strip] makes of it. *)
Lemma parse_serves_second_code_strip (s r : Player) (w : bool)
    (code a b : string) :
  strip a = strip b ->
  parse_serves s r w code (Some a) = parse_serves s r w code (Some b).
Proof.
  intros Hab. unfold Charting.parse_serves. unfold_result.
  rewrite Hab. reflexivity.
Qed.

(** *** The three ways through [from_code] *)

Lemma from_code_cases (s r : Player) (w : bool) (fc : string) :
  (exists seq, first_serve seq = None /\ second_serve seq = None /\
               rally seq = None /\ has_shape seq = true /\
               forall sc, from_code s r w fc sc = Ok seq)
  \/ (exists code, forall sc, from_code s r w fc sc = parse_serves s r w code sc)
  \/ (exists msg, forall sc,
        from_code s r w fc sc = Raise (CodeParsingException msg)).
Proof.
  unfold Charting.from_code.
  destruct (String.length (strip fc) =? 1)%nat; [|right; left; eauto].
  destruct (str_in (strip fc) ["S"; "R"]).
  { left. exists (mkShotSequence s r w None true None None false false).
    repeat split. }
  destruct (String.eqb (strip fc) "P").
  { left. exists (mkShotSequence s r w None false None None true false).
    repeat split. }
  destruct (String.eqb (strip fc) "Q").
  { left. exists (mkShotSequence s r w None false None None false true).
    repeat split. }
  destruct (str_in (strip fc) possible_faults); right; [left|right]; eauto.
Qed.

(** A fully coded result comes from the two-serve part. *)
Lemma from_code_full (s r : Player) (w : bool) (fc : string)
    (sc : option string) seq :
  from_code s r w fc sc = Ok seq -> first_serve seq <> None ->
  exists code, forall sc', from_code s r w fc sc' = parse_serves s r w code sc'.
Proof.
  intros H Hfs.
  destruct (from_code_cases s r w fc) as [(seq' & Hn & _ & _ & _ & Hs)|[Hp|(msg & Hm)]].
  - rewrite Hs in H. injection H as <-. contradiction.
  - exact Hp.
  - rewrite Hm in H. discriminate.
Qed.

(** A blank first code reaches the serve decoder as the empty code. *)
Lemma from_code_blank (s r : Player) (w : bool) (fc : string)
    (sc : option string) :
  is_blank fc = true ->
  from_code s r w fc sc = parse_serves s r w "" sc.
Proof.
  intros Hb. unfold Charting.from_code.
  assert (strip fc = "") as ->; [|reflexivity].
  unfold strip. rewrite (lstrip_blank fc Hb). reflexivity.
Qed.

(** So a blank first code is never reported as an unknown single-character
    code, whatever the serve decoder does with the empty code. *)
Lemma blank_code_never_reported (s r : Player) (w : bool) (fc : string)
    (sc : option string) (msg : string) :
  is_blank fc = true ->
  from_code s r w fc sc <> Raise (CodeParsingException msg).
Proof.
  intros Hb H. rewrite (from_code_blank s r w fc sc Hb) in H.
  apply parse_serves_raise in H as [[e' He]|[He _]]; discriminate.
Qed.

(** The tests of a character that is no shortcut letter. *)
Lemma not_shortcut (c : ascii) :
  String c "" ∉ ["S"; "R"; "P"; "Q"] ->
  str_in (String c "") ["S"; "R"] = false /\
  String.eqb (String c "") "P" = false /\
  String.eqb (String c "") "Q" = false.
Proof.
  intros Hshort. repeat split.
  - apply str_in_false. intros Hin. apply Hshort.
    apply list_elem_of_In. apply list_elem_of_In in Hin. simpl in *. tauto.
  - apply String.eqb_neq. intros Heq. apply Hshort. rewrite Heq.
    apply list_elem_of_In. simpl. tauto.
  - apply String.eqb_neq. intros Heq. apply Hshort. rewrite Heq.
    apply list_elem_of_In. simpl. tauto.
Qed.

(** *** The claims about [from_code] *)

(** C1. The one-character codes 'S' and 'R' give a sequence with
    [not_coded] set and no serve and no rally; 'P' gives one with
    [server_lost_outright] set, 'Q' one with [server_won_outright] set; this
    for every server, returner, [server_won] and second code, which does not
    occur in the results. *)
Theorem from_code_shortcuts (s r : Player) (w : bool) (sc : option string) :
  from_code s r w "S" sc
    = Ok (mkShotSequence s r w None true None None false false) /\
  from_code s r w "R" sc
    = Ok (mkShotSequence s r w None true None None false false) /\
  from_code s r w "P" sc
    = Ok (mkShotSequence s r w None false None None true false) /\
  from_code s r w "Q" sc
    = Ok (mkShotSequence s r w None false None None false true).
Proof. repeat split. Qed.

(** C2. A fully coded sequence returned by [from_code] has a second serve
    exactly when its first serve was a fault; in that case the second serve
    is the decoding of the stripped second code, and otherwise
    [second_serve] is [None]. *)
Theorem second_serve_iff_first_fault (s r : Player) (w : bool) (fc : string)
    (sc : option string) seq (fs : Serve) :
  from_code s r w fc sc = Ok seq -> first_serve seq = Some fs ->
  (second_serve seq <> None <-> was_fault fs = true) /\
  (was_fault fs = true ->
   exists code2 ss rem2,
     sc = Some code2 /\
     Serve_from_code (strip code2) s false = Ok (ss, rem2) /\
     second_serve seq = Some ss) /\
  (was_fault fs = false -> second_serve seq = None).
Proof.
  intros H Hfs.
  destruct (from_code_full s r w fc sc seq H) as [code Hp]; [congruence|].
  rewrite Hp in H. apply parse_serves_ok in H as (fs' & rem & _ & Hseq & Hb).
  assert (fs' = fs) as -> by (rewrite Hseq in Hfs; simpl in Hfs; congruence).
  destruct Hb as [(Hf & code2 & ss & rem2 & -> & H2 & Hss & _)|(Hf & Hss & _)].
  - rewrite Hf, Hss. repeat split; try congruence.
    intros _. exists code2, ss, rem2. auto.
  - rewrite Hf, Hss. repeat split; congruence.
Qed.

(** The serve that ends the serving phase decides whether there is a rally,
    and a rally is what [Rally.from_code] made of what that serve left. *)
Lemma terminating_serve_rally (s r : Player) (w : bool) (fc : string)
    (sc : option string) seq :
  from_code s r w fc sc = Ok seq -> first_serve seq <> None ->
  exists ts,
    terminating_serve seq = Some ts /\
    (had_rally ts = true <-> rally seq <> None) /\
    forall rl, rally seq = Some rl ->
      exists code first rem,
        Serve_from_code code s first = Ok (ts, rem) /\
        had_rally ts = true /\
        Rally_from_code rem s r = Ok rl.
Proof.
  intros H Hfs.
  destruct (from_code_full s r w fc sc seq H Hfs) as [code Hp].
  rewrite Hp in H. apply parse_serves_ok in H as (fs & rem & H1 & Hseq & Hb).
  unfold Charting.terminating_serve.
  assert (first_serve seq = Some fs) as -> by (rewrite Hseq; reflexivity).
  destruct Hb as [(Hf & code2 & ss & rem2 & -> & H2 & Hss & Hr)|(Hf & Hss & Hr)];
    rewrite Hf.
  - exists ss. rewrite Hss. split; [reflexivity|].
    split; [exact (rally_after_iff _ _ _ _ _ Hr)|].
    intros rl Hrl. rewrite Hrl in Hr. apply rally_after_some in Hr as [? ?].
    exists (strip code2), false, rem2. auto.
  - exists fs. split; [reflexivity|].
    split; [exact (rally_after_iff _ _ _ _ _ Hr)|].
    intros rl Hrl. rewrite Hrl in Hr. apply rally_after_some in Hr as [? ?].
    exists code, true, rem. auto.
Qed.


(** C4, as the code has it.  A first code that, once stripped of the
    whitespace around it, is one character that is neither 'S', 'R', 'P',
    'Q' nor a fault letter makes [from_code] raise [CodeParsingException]
    with the message "Unknown single-character code: " followed by that
    character; no sequence is returned. *)
Theorem unknown_single_character (s r : Player) (w : bool) (fc : string)
    (sc : option string) (c : ascii) :
  strip fc = String c "" ->
  String c "" ∉ ["S"; "R"; "P"; "Q"] ->
  String c "" ∉ possible_faults ->
  from_code s r w fc sc
  = Raise (CodeParsingException
             ("Unknown single-character code: " +:+ String c "")).
Proof.
  intros Hs Hshort Hfault. unfold Charting.from_code. rewrite Hs.
  change (String.length (String c "") =? 1)%nat with true. cbv iota.
  destruct (not_shortcut c Hshort) as (-> & -> & ->).
  apply str_in_false in Hfault. rewrite Hfault. reflexivity.
Qed.

(** For any serve decoder: a one-character first code that is a fault
    letter, no whitespace and no shortcut letter, is decoded as the code with
    '0' put before it, and the unknown-code exception is not raised.  When
    the serve decoder classifies that code as a fault, a second code is
    required: with [None] for it [from_code] raises the [AttributeError] of
    [None.strip()], and every sequence returned has that fault as first serve
    and the decoding of the stripped second code as second serve. *)
Theorem bare_fault_letter (s r : Player) (w : bool) (c : ascii)
    (sc : option string) :
  is_space c = false ->
  String c "" ∉ ["S"; "R"; "P"; "Q"] ->
  String c "" ∈ possible_faults ->
  from_code s r w (String c "") sc
    = parse_serves s r w (String "0" (String c "")) sc /\
  (forall msg, from_code s r w (String c "") sc
               <> Raise (CodeParsingException msg)) /\
  (forall fs rem,
     Serve_from_code (String "0" (String c "")) s true = Ok (fs, rem) ->
     was_fault fs = true ->
     from_code s r w (String c "") None
       = Raise (AttributeError none_has_no_strip) /\
     forall seq, from_code s r w (String c "") sc = Ok seq ->
       first_serve seq = Some fs /\
       exists code2 ss rem2,
         sc = Some code2 /\
         Serve_from_code (strip code2) s false = Ok (ss, rem2) /\
         second_serve seq = Some ss).
Proof.
  intros Hc Hshort Hfault.
  assert (forall sc', from_code s r w (String c "") sc'
                      = parse_serves s r w (String "0" (String c "")) sc') as Hn.
  { intros sc'. unfold Charting.from_code. rewrite (strip_single c Hc).
    change (String.length (String c "") =? 1)%nat with true. cbv iota.
    destruct (not_shortcut c Hshort) as (-> & -> & ->).
    apply str_in_true in Hfault. rewrite Hfault. reflexivity. }
  split; [apply Hn|]. split.
  - intros msg H. rewrite Hn in H.
    apply parse_serves_raise in H as [[e' He]|[He _]]; discriminate.
  - intros fs rem H1 Hf. split.
    + rewrite Hn. unfold Charting.parse_serves. unfold_result.
      rewrite H1, Hf. reflexivity.
    + intros seq H. rewrite Hn in H.
      apply parse_serves_ok in H as (fs' & rem' & H1' & Hseq & Hb).
      rewrite H1 in H1'. injection H1' as <- <-.
      split; [rewrite Hseq; reflexivity|].
      destruct Hb as [(_ & code2 & ss & rem2 & -> & H2 & Hss & _)|(Hf' & _)].
      * exists code2, ss, rem2. auto.
      * congruence.
Qed.

(** C6. The constructor returns a sequence only when its assertion holds,
    so every sequence built has one of the four shapes; and [from_code]
    never fails with the constructor's [AssertionError]: what it returns has
    one of the four shapes, and what it raises is something else. *)
Theorem from_code_keeps_shape :
  (forall (s r : Player) (w : bool) (fs ss : option Serve) (rl : option Rally)
          (nc lo wo : bool),
     match init s r w fs ss rl nc lo wo with
     | Ok seq => has_shape seq = true
     | Raise e => e = AssertionError /\
                  nc || lo || wo || bool_decide (fs <> None) = false
     end) /\
  (forall (s r : Player) (w : bool) (fc : string) (sc : option string),
     match from_code s r w fc sc with
     | Ok seq => has_shape seq = true
     | Raise e => e <> AssertionError
     end).
Proof.
  split.
  - intros s r w fs ss rl nc lo wo. unfold Charting.init.
    destruct (nc || lo || wo || bool_decide (fs <> None)) eqn:Hc.
    + exact Hc.
    + split; reflexivity.
  - intros s r w fc sc.
    destruct (from_code_cases s r w fc)
      as [(seq & _ & _ & _ & Hshape & Hs)|[(code & Hp)|(msg & Hm)]].
    + rewrite Hs. exact Hshape.
    + rewrite Hp. destruct (parse_serves s r w code sc) as [seq|e] eqn:H.
      * apply parse_serves_ok in H as (fs & rem & _ & -> & _). reflexivity.
      * apply parse_serves_raise in H as [[e' ->]|[-> _]]; discriminate.
    + rewrite Hm. discriminate.
Qed.

(** C8. When the first serve of a returned sequence is no fault, the second
    code was not consulted: the sequence has no second serve, and every
    other second code, [None] included, gives the same sequence. *)
Theorem second_code_not_consulted (s r : Player) (w : bool) (fc : string)
    (sc : option string) seq (fs : Serve) :
  from_code s r w fc sc = Ok seq -> first_serve seq = Some fs ->
  was_fault fs = false ->
  second_serve seq = None /\
  forall sc', from_code s r w fc sc' = Ok seq.
Proof.
  intros H Hfs Hf.
  destruct (from_code_full s r w fc sc seq H) as [code Hp]; [congruence|].
  rewrite Hp in H. pose proof H as H'.
  apply parse_serves_ok in H' as (fs' & rem & H1 & Hseq & Hb).
  assert (fs' = fs) as -> by (rewrite Hseq in Hfs; simpl in Hfs; congruence).
  split.
  - destruct Hb as [(Hf' & _)|(_ & Hss & _)]; [congruence|exact Hss].
  - intros sc'. rewrite Hp, <- H.
    exact (parse_serves_second_code_unused s r w code fs rem sc' sc H1 Hf).
Qed.

(** C9. Whitespace before and after the first code does not change the
    result: it is the result for the stripped first code; and the same holds
    for the second code. *)
Theorem from_code_ignores_whitespace (s r : Player) (w : bool)
    (fc code2 w1 w2 : string) (sc : option string) :
  is_blank w1 = true -> is_blank w2 = true ->
  from_code s r w (w1 +:+ fc +:+ w2) sc = from_code s r w (strip fc) sc /\
  from_code s r w fc (Some (w1 +:+ code2 +:+ w2))
    = from_code s r w fc (Some (strip code2)).
Proof.
  intros H1 H2. split.
  - unfold Charting.from_code.
    rewrite (strip_pad w1 fc w2 H1 H2), strip_idem. reflexivity.
  - assert (strip (w1 +:+ code2 +:+ w2) = strip (strip code2)) as Hs
      by (rewrite strip_idem; apply strip_pad; assumption).
    unfold Charting.from_code.
    repeat match goal with
           | |- context [if ?b then _ else _] => destruct b
           end;
      try reflexivity; apply parse_serves_second_code_strip, Hs.
Qed.

(** A first serve that is a fault needs a second code: with [None] for it,
    [from_code] fails with the [AttributeError] of [None.strip()]. *)
Theorem fault_needs_second_code (s r : Player) (w : bool) (fc : string)
    (fs : Serve) (rem : string) :
  (String.length (strip fc) =? 1)%nat = false ->
  Serve_from_code (strip fc) s true = Ok (fs, rem) ->
  was_fault fs = true ->
  from_code s r w fc None = Raise (AttributeError none_has_no_strip).
Proof.
  intros Hlen H1 Hf. unfold Charting.from_code. rewrite Hlen.
  unfold Charting.parse_serves. unfold_result. rewrite H1, Hf. reflexivity.
Qed.

End Decoder.

End ChartingFacts.

(** ** The decoders of the specification *)

Module SpecModelFacts.

Import Charting SpecModel PyFacts ChartingFacts.

Section Tables.

Context {Player : Type}.
Variable possible_faults : list string.
Variable in_play_kind : string -> InPlay.
Variable is_shot_type : ascii -> bool.
Variable is_outcome_marker : ascii -> bool.
Variable is_depth_marker : ascii -> bool.

Local Abbreviation Serve_from_code :=
  (@SpecModel.Serve_from_code Player possible_faults in_play_kind).
Local Abbreviation rally_shots :=
  (@SpecModel.rally_shots Player is_shot_type is_outcome_marker
     is_depth_marker).
Local Abbreviation Rally_from_code :=
  (@SpecModel.Rally_from_code Player is_shot_type is_outcome_marker
     is_depth_marker).
Local Abbreviation from_code :=
  (@SpecModel.from_code Player possible_faults in_play_kind is_shot_type
     is_outcome_marker is_depth_marker).

(** A bare fault letter after the placeholder digit is a fault of that kind
    with unknown direction, and nothing is left of the code. *)
Lemma Serve_from_code_placeholder_fault (c : ascii) (s : Player) (first : bool) :
  String c "" ∈ possible_faults ->
  Serve_from_code (String "0" (String c "")) s first
  = Ok (mkServe s first (String "0" (String c "")) (Some (String c ""))
          UnknownDirection Fault, "").
Proof.
  intros Hin. apply str_in_true in Hin.
  unfold SpecModel.Serve_from_code, serve_after_direction.
  change (is_digit "0") with true. cbv iota. rewrite Hin. reflexivity.
Qed.

(** Every token yields a shot: the token loop returns at least the shot it
    was reading. *)
Lemma rally_shots_nonempty (full rest : string) (hitter other : Player)
    (cur : Shot Player) (l : list (Shot Player)) :
  rally_shots full hitter other cur rest = Ok l -> l <> [].
Proof.
  revert hitter other cur l.
  induction rest as [|c rest IH]; intros hitter other cur l; simpl.
  - intros [= <-]. discriminate.
  - destruct (is_shot_type c).
    + destruct (is_terminal cur); [discriminate|]. unfold_result.
      destruct (rally_shots full other hitter _ rest); [|discriminate].
      intros [= <-]. discriminate.
    + destruct (is_digit c && negb (Ascii.eqb c "0")); [apply IH|].
      destruct (is_outcome_marker c); [apply IH|].
      destruct (is_depth_marker c); [apply IH|discriminate].
Qed.

(** The rally decoded from a non-empty code has a shot. *)
Lemma Rally_from_code_nonempty (code : string) (s r : Player)
    (rl : Rally Player) :
  code <> "" -> Rally_from_code code s r = Ok rl -> shots rl <> [].
Proof.
  intros Hne. unfold SpecModel.Rally_from_code.
  destruct code as [|c rest]; [contradiction|].
  destruct (is_shot_type c); [|discriminate]. unfold_result.
  destruct (rally_shots _ r s _ rest) as [l|e] eqn:Hl; [|discriminate].
  intros [= <-]. simpl. eapply rally_shots_nonempty, Hl.
Qed.

(** C5. A one-character first code that is a fault letter (no whitespace,
    no shortcut letter) does not fail as an unknown code.  [from_code] puts
    '0' before it and decodes on: the first serve is the fault of that kind
    with unknown direction, and a second code is required.  With [None] for
    it the call fails with the [AttributeError] of [None.strip()]; with a
    second code, the call is the decoding of the stripped second code as
    second serve, of the rally if that serve had one, and the sequence
    returned holds the fault as first serve and that second serve. *)
Theorem bare_fault_letter_is_a_fault (s r : Player) (w : bool) (c : ascii) :
  is_space c = false ->
  String c "" ∉ ["S"; "R"; "P"; "Q"] ->
  String c "" ∈ possible_faults ->
  let fault :=
    mkServe s true (String "0" (String c "")) (Some (String c ""))
      UnknownDirection Fault in
  Serve_from_code (String "0" (String c "")) s true = Ok (fault, "") /\
  was_fault fault = true /\
  (forall sc msg,
     from_code s r w (String c "") sc <> Raise (CodeParsingException msg)) /\
  from_code s r w (String c "") None
    = Raise (AttributeError none_has_no_strip) /\
  (forall code2,
     from_code s r w (String c "") (Some code2)
     = match Serve_from_code (strip code2) s false with
       | Raise e => Raise (Raised e)
       | Ok (ss, rem2) =>
           match Charting.rally_after had_rally Rally_from_code ss rem2 s r with
           | Raise e => Raise e
           | Ok rl =>
               Ok (mkShotSequence s r w rl false (Some fault) (Some ss)
                     false false)
           end
       end) /\
  (forall sc seq,
     from_code s r w (String c "") sc = Ok seq ->
     first_serve seq = Some fault /\ exists ss, second_serve seq = Some ss).
Proof.
  intros Hc Hshort Hfault fault.
  pose proof (Serve_from_code_placeholder_fault c s true Hfault) as Hserve.
  fold fault in Hserve.
  assert (forall sc,
            from_code s r w (String c "") sc
            = Charting.parse_serves was_fault had_rally Serve_from_code
                Rally_from_code s r w (String "0" (String c "")) sc) as Hn.
  { intros sc. unfold SpecModel.from_code.
    exact (proj1 (bare_fault_letter was_fault had_rally Serve_from_code
                    Rally_from_code possible_faults s r w c sc Hc Hshort
                    Hfault)). }
  assert (forall code2,
            from_code s r w (String c "") (Some code2)
            = match Serve_from_code (strip code2) s false with
              | Raise e => Raise (Raised e)
              | Ok (ss, rem2) =>
                  match Charting.rally_after had_rally Rally_from_code ss rem2
                          s r with
                  | Raise e => Raise e
                  | Ok rl =>
                      Ok (mkShotSequence s r w rl false (Some fault) (Some ss)
                            false false)
                  end
              end) as Hsome.
  { intros code2. rewrite Hn. unfold Charting.parse_serves. unfold_result.
    rewrite Hserve. change (was_fault fault) with true. cbv iota.
    destruct (Serve_from_code (strip code2) s false) as [[ss rem2]|e];
      [|reflexivity].
    destruct (Charting.rally_after had_rally Rally_from_code ss rem2 s r);
      reflexivity. }
  assert (from_code s r w (String c "") None
          = Raise (AttributeError none_has_no_strip)) as Hnone.
  { rewrite Hn. unfold Charting.parse_serves. unfold_result.
    rewrite Hserve. reflexivity. }
  split; [exact Hserve|]. split; [reflexivity|]. split.
  { intros sc msg. unfold SpecModel.from_code.
    exact (proj1 (proj2 (bare_fault_letter was_fault had_rally Serve_from_code
                           Rally_from_code possible_faults s r w c sc Hc
                           Hshort Hfault)) msg). }
  split; [exact Hnone|]. split; [exact Hsome|].
  intros [code2|] seq H.
  - rewrite Hsome in H.
    destruct (Serve_from_code (strip code2) s false) as [[ss rem2]|e];
      [|discriminate].
    destruct (Charting.rally_after had_rally Rally_from_code ss rem2 s r);
      [|discriminate].
    injection H as <-. split; [reflexivity|]. exists ss. reflexivity.
  - rewrite Hnone in H. discriminate.
Qed.

Section Continuation.

(** The precondition of the rally decoder (section 4.2: its input is
    "guaranteed non-empty when invoked"; example 3 of section 8: a serve with
    no trailing rally characters has no rally): a serve counts as returned
    only when characters follow it. *)
Hypothesis returned_has_continuation :
  forall rest, in_play_kind rest = InPlayReturned -> rest <> "".

Lemma had_rally_leaves_code (code : string) (s : Player) (first : bool)
    (sv : Serve Player) (rem : string) :
  Serve_from_code code s first = Ok (sv, rem) ->
  had_rally sv = true -> rem <> "".
Proof.
  unfold SpecModel.Serve_from_code.
  destruct code as [|d rest]; [discriminate|].
  assert (forall rest', outcome_of_in_play (in_play_kind rest') = ReturnInPlay ->
                        rest' <> "") as Hret.
  { intros rest' Hk. apply returned_has_continuation.
    destruct (in_play_kind rest'); (reflexivity || discriminate). }
  destruct (is_digit d).
  - unfold serve_after_direction. destruct rest as [|f rest'].
    + intros [= <- <-]. unfold had_rally. simpl.
      destruct (outcome_of_in_play (in_play_kind "")) eqn:Hk; try discriminate.
      intros _. exact (Hret _ Hk).
    + destruct (str_in (String f "") possible_faults).
      * intros [= <- <-]. discriminate.
      * intros [= <- <-]. unfold had_rally. simpl.
        destruct (outcome_of_in_play (in_play_kind (String f rest')));
          discriminate.
  - destruct (str_in (String d "") possible_faults); [|discriminate].
    intros [= <- <-]. discriminate.
Qed.

(** With that precondition on the table, the rally of a fully coded
    sequence returned by [from_code] over the modelled decoders has at least
    one shot.  Without it the rally can be empty, as [Sample.empty_rally_point]
    shows. *)
Theorem rally_iff_terminating_serve_had_rally (s r : Player) (w : bool)
    (fc : string) (sc : option string) seq :
  from_code s r w fc sc = Ok seq -> first_serve seq <> None ->
  (exists ts, terminating_serve was_fault seq = Some ts /\
              (had_rally ts = true <-> rally seq <> None)) /\
  (forall rl, rally seq = Some rl -> shots rl <> []).
Proof.
  intros H Hfs. unfold SpecModel.from_code in H.
  destruct (terminating_serve_rally _ _ _ _ _ s r w fc sc seq H Hfs)
    as (ts & Hts & Hiff & Hrl).
  split; [exists ts; auto|].
  intros rl Hsome.
  destruct (Hrl rl Hsome) as (code & first & rem & Hsv & Hhad & Hrally).
  eapply Rally_from_code_nonempty; [|exact Hrally].
  exact (had_rally_leaves_code code s first ts rem Hsv Hhad).
Qed.

End Continuation.

End Tables.

End SpecModelFacts.

(** ** The match loader *)

Module DatasetsFacts.

Import Datasets.

Section TurnIntoMatches.

Context {V E Stats Score SetScore Match : Type}.
Variable calculate_stats : V -> V -> gmap string V -> result (exn E) Stats.
Variable ParsedStringScore : V -> V -> V -> result (exn E) Score.
Variable sets : Score -> list SetScore.
Variable CompletedMatch :
  V -> V -> V -> V -> Stats -> V -> option V -> V -> option (list (V * V)) ->
  Score -> result (exn E) Match.

Local Abbreviation row_stats := (Datasets.row_stats calculate_stats).
Local Abbreviation row_score := (Datasets.row_score ParsedStringScore).
Local Abbreviation row_match := (Datasets.row_match CompletedMatch).
Local Abbreviation turn_into_matches :=
  (Datasets.turn_into_matches calculate_stats ParsedStringScore sets
     CompletedMatch).

(** A row that the loop passes over may be taken out of the records. *)
Lemma skipped_row_drops (row : gmap string V) :
  (forall rest, turn_into_matches (row :: rest) = turn_into_matches rest) ->
  forall pre post,
    turn_into_matches (pre ++ row :: post) = turn_into_matches (pre ++ post).
Proof.
  intros Hskip pre post. induction pre as [|a pre IH]; [apply Hskip|].
  simpl. rewrite IH. reflexivity.
Qed.

(** Every match yielded was built from a row of the records whose score was
    parsed and has at least two sets. *)
Lemma yielded_from_two_sets (records : list (gmap string V)) (m : Match) :
  m ∈ yielded (turn_into_matches records) ->
  exists row stats score,
    row ∈ records /\
    row_stats row = Ok stats /\
    row_score row = Ok score /\
    2 <= length (sets score) /\
    row_match row stats score = Ok m.
Proof.
  induction records as [|row records IH]; simpl.
  - intros Hin. apply elem_of_nil in Hin. contradiction.
  - assert (m ∈ yielded (turn_into_matches records) ->
            exists row' stats score,
              row' ∈ row :: records /\ row_stats row' = Ok stats /\
              row_score row' = Ok score /\ 2 <= length (sets score) /\
              row_match row' stats score = Ok m) as Hrest.
    { intros Hin. destruct (IH Hin) as (row' & stats & score & Hr & Hrest).
      exists row', stats, score. split; [apply elem_of_cons; auto|exact Hrest]. }
    destruct (row_stats row) as [stats|e] eqn:Hstats.
    2:{ intros Hin. apply elem_of_nil in Hin. contradiction. }
    destruct (row_score row) as [score|e] eqn:Hscore.
    2:{ destruct e; [|exact Hrest|];
          intros Hin; apply elem_of_nil in Hin; contradiction. }
    destruct (length (sets score) <? 2)%nat eqn:Hlen; [exact Hrest|].
    apply Nat.ltb_ge in Hlen.
    destruct (row_match row stats score) as [m'|e] eqn:Hmatch.
    2:{ intros Hin. apply elem_of_nil in Hin. contradiction. }
    simpl. intros [->|Hin]%elem_of_cons; [|exact (Hrest Hin)].
    exists row, stats, score. repeat split; auto. apply elem_of_cons; auto.
Qed.

(** C7. A row whose score makes [ParsedStringScore] raise
    [BadFormattingException] (the statistics of the row having been
    computed, which the loop does first) is passed over: the generator does
    what it does on the records without that row, so no match is produced
    for the row and the rows before and after it are processed as they would
    be alone. *)
Theorem bad_score_row_is_skipped (pre post : list (gmap string V))
    (row : gmap string V) (stats : Stats) :
  row_stats row = Ok stats ->
  row_score row = Raise BadFormattingException ->
  turn_into_matches (pre ++ row :: post) = turn_into_matches (pre ++ post).
Proof.
  intros Hstats Hscore. apply skipped_row_drops.
  intros rest. simpl. rewrite Hstats, Hscore. reflexivity.
Qed.

(** C10. A row whose parsed score has fewer than two sets is passed over
    without an exception: the generator does what it does on the records
    without that row; and every match the generator yields was built from a
    row whose parsed score has at least two sets. *)
Theorem short_score_row_is_skipped (pre post : list (gmap string V))
    (row : gmap string V) (stats : Stats) (score : Score) :
  row_stats row = Ok stats ->
  row_score row = Ok score ->
  length (sets score) < 2 ->
  turn_into_matches (pre ++ row :: post) = turn_into_matches (pre ++ post) /\
  forall records m,
    m ∈ yielded (turn_into_matches records) ->
    exists row' stats' score',
      row' ∈ records /\
      row_stats row' = Ok stats' /\
      row_score row' = Ok score' /\
      2 <= length (sets score') /\
      row_match row' stats' score' = Ok m.
Proof.
  intros Hstats Hscore Hlen. split; [|apply yielded_from_two_sets].
  apply skipped_row_drops. intros rest. simpl. rewrite Hstats, Hscore.
  apply Nat.ltb_lt in Hlen. rewrite Hlen. reflexivity.
Qed.

(** Only [BadFormattingException] raised by [ParsedStringScore] is caught:
    an exception of [calculate_stats] (of any class, since it is called
    before the [try]) or another exception of the score parsing stops the
    generator at that row. *)
Theorem other_failures_stop_the_generator (row : gmap string V)
    (post : list (gmap string V)) (e : exn E) :
  row_stats row = Raise e \/
  (exists stats, row_stats row = Ok stats /\ row_score row = Raise e /\
                 e <> BadFormattingException) ->
  turn_into_matches (row :: post) = Abort e.
Proof.
  intros [Hstats|(stats & Hstats & Hscore & Hne)]; simpl; rewrite Hstats.
  - reflexivity.
  - rewrite Hscore. destruct e; [reflexivity|contradiction|reflexivity].
Qed.

End TurnIntoMatches.

End DatasetsFacts.

(** ** Examples on the sample tables *)

Module Examples.

Import Charting SpecModel.

Local Abbreviation Serve_from_code :=
  (@SpecModel.Serve_from_code string Sample.possible_faults Sample.in_play_kind).
Local Abbreviation Rally_from_code :=
  (@SpecModel.Rally_from_code string Sample.is_shot_type
     Sample.is_outcome_marker Sample.is_depth_marker).

Lemma sample_returned_has_continuation (rest : string) :
  Sample.in_play_kind rest = InPlayReturned -> rest <> "".
Proof. destruct rest; [discriminate|]. intros _. discriminate. Qed.

(** Example 1 of the specification. *)
Example from_code_S :
  Sample.from_code "A" "B" true "S" None
  = Ok (mkShotSequence "A" "B" true None true None None false false).
Proof. reflexivity. Qed.

(** A first code of one blank is handed to the serve decoder as the empty
    code: [from_code] does not report the blank as an unknown
    single-character code, although it is one character, no shortcut letter
    and no fault letter. *)
Lemma blank_code_is_not_reported :
  (String " " "" ∉ ["S"; "R"; "P"; "Q"]) /\
  (String " " "" ∉ Sample.possible_faults) /\
  Sample.from_code "A" "B" true " " None
    = Raise (Raised (MissingRequiredServe "")) /\
  Sample.from_code "A" "B" true " " None
    <> Raise (CodeParsingException "Unknown single-character code:  ").
Proof.
  repeat split; try discriminate;
    apply PyFacts.str_in_false; reflexivity.
Qed.

Lemma second_serve_iff_first_fault_witness :
  Sample.from_code "A" "B" true "n" (Some " 4f1b2* ")
    = Ok Sample.second_serve_point /\
  first_serve Sample.second_serve_point = Some Sample.first_fault /\
  (second_serve Sample.second_serve_point <> None
   <-> was_fault Sample.first_fault = true).
Proof.
  assert (Sample.from_code "A" "B" true "n" (Some " 4f1b2* ")
          = Ok Sample.second_serve_point) as H1 by reflexivity.
  assert (first_serve Sample.second_serve_point = Some Sample.first_fault)
    as H2 by reflexivity.
  split; [exact H1|]. split; [exact H2|].
  exact (proj1 (ChartingFacts.second_serve_iff_first_fault
                  was_fault had_rally Serve_from_code Rally_from_code
                  Sample.possible_faults "A" "B" true "n" (Some " 4f1b2* ")
                  Sample.second_serve_point Sample.first_fault H1 H2)).
Defined.

Lemma rally_iff_terminating_serve_had_rally_witness :
  (forall rest, Sample.in_play_kind rest = InPlayReturned -> rest <> "") /\
  Sample.from_code "A" "B" true "n" (Some " 4f1b2* ")
    = Ok Sample.second_serve_point /\
  first_serve Sample.second_serve_point <> None /\
  (exists ts,
     terminating_serve was_fault Sample.second_serve_point = Some ts /\
     (had_rally ts = true <-> rally Sample.second_serve_point <> None)) /\
  (forall rl, rally Sample.second_serve_point = Some rl -> shots rl <> []).
Proof.
  assert (Sample.from_code "A" "B" true "n" (Some " 4f1b2* ")
          = Ok Sample.second_serve_point) as H1 by reflexivity.
  assert (first_serve Sample.second_serve_point <> None) as H2 by discriminate.
  split; [exact sample_returned_has_continuation|].
  split; [exact H1|]. split; [exact H2|].
  exact (SpecModelFacts.rally_iff_terminating_serve_had_rally
           Sample.possible_faults Sample.in_play_kind Sample.is_shot_type
           Sample.is_outcome_marker Sample.is_depth_marker
           sample_returned_has_continuation
           "A" "B" true "n" (Some " 4f1b2* ") Sample.second_serve_point H1 H2).
Defined.

Lemma unknown_single_character_witness :
  strip " X " = "X" /\
  (String "X" "" ∉ ["S"; "R"; "P"; "Q"]) /\
  (String "X" "" ∉ Sample.possible_faults) /\
  Sample.from_code "A" "B" true " X " None
    = Raise (CodeParsingException "Unknown single-character code: X").
Proof.
  assert (strip " X " = "X") as H1 by reflexivity.
  assert (String "X" "" ∉ ["S"; "R"; "P"; "Q"]) as H2
    by (apply PyFacts.str_in_false; reflexivity).
  assert (String "X" "" ∉ Sample.possible_faults) as H3
    by (apply PyFacts.str_in_false; reflexivity).
  split; [exact H1|]. split; [exact H2|]. split; [exact H3|].
  exact (ChartingFacts.unknown_single_character
           was_fault had_rally Serve_from_code Rally_from_code
           Sample.possible_faults "A" "B" true " X " None "X" H1 H2 H3).
Defined.

Lemma bare_fault_letter_witness :
  is_space "n" = false /\
  (String "n" "" ∉ ["S"; "R"; "P"; "Q"]) /\
  (String "n" "" ∈ Sample.possible_faults) /\
  Serve_from_code "0n" "A" true = Ok (Sample.first_fault, "") /\
  was_fault Sample.first_fault = true /\
  Sample.from_code "A" "B" true "n" None
    = Raise (AttributeError none_has_no_strip).
Proof.
  assert (is_space "n" = false) as H1 by reflexivity.
  assert (String "n" "" ∉ ["S"; "R"; "P"; "Q"]) as H2
    by (apply PyFacts.str_in_false; reflexivity).
  assert (String "n" "" ∈ Sample.possible_faults) as H3
    by (apply PyFacts.str_in_true; reflexivity).
  assert (Serve_from_code "0n" "A" true = Ok (Sample.first_fault, ""))
    as H4 by reflexivity.
  assert (was_fault Sample.first_fault = true) as H5 by reflexivity.
  repeat (split; [assumption|]).
  exact (proj1 (proj2 (proj2 (ChartingFacts.bare_fault_letter
           was_fault had_rally Serve_from_code Rally_from_code
           Sample.possible_faults "A" "B" true "n" None H1 H2 H3))
           Sample.first_fault "" H4 H5)).
Defined.

Lemma second_code_not_consulted_witness :
  Sample.from_code "A" "B" true "4f1b2*" (Some "zz")
    = Ok Sample.first_serve_point /\
  first_serve Sample.first_serve_point = Some Sample.first_returned /\
  was_fault Sample.first_returned = false /\
  second_serve Sample.first_serve_point = None /\
  (forall sc', Sample.from_code "A" "B" true "4f1b2*" sc'
               = Ok Sample.first_serve_point).
Proof.
  assert (Sample.from_code "A" "B" true "4f1b2*" (Some "zz")
          = Ok Sample.first_serve_point) as H1 by reflexivity.
  assert (first_serve Sample.first_serve_point = Some Sample.first_returned)
    as H2 by reflexivity.
  assert (was_fault Sample.first_returned = false) as H3 by reflexivity.
  repeat (split; [assumption|]).
  exact (ChartingFacts.second_code_not_consulted
           was_fault had_rally Serve_from_code Rally_from_code
           Sample.possible_faults "A" "B" true "4f1b2*" (Some "zz")
           Sample.first_serve_point Sample.first_returned H1 H2 H3).
Defined.

Lemma from_code_ignores_whitespace_witness :
  is_blank " " = true /\
  is_blank "  " = true /\
  Sample.from_code "A" "B" true (" " +:+ "4f1b2*" +:+ "  ") None
    = Sample.from_code "A" "B" true (strip "4f1b2*") None /\
  Sample.from_code "A" "B" true "n" (Some (" " +:+ "4f1b2*" +:+ "  "))
    = Sample.from_code "A" "B" true "n" (Some (strip "4f1b2*")).
Proof.
  assert (is_blank " " = true) as H1 by reflexivity.
  assert (is_blank "  " = true) as H2 by reflexivity.
  split; [exact H1|]. split; [exact H2|]. split.
  - exact (proj1 (ChartingFacts.from_code_ignores_whitespace
             was_fault had_rally Serve_from_code Rally_from_code
             Sample.possible_faults "A" "B" true "4f1b2*" "" " " "  " None
             H1 H2)).
  - exact (proj2 (ChartingFacts.from_code_ignores_whitespace
             was_fault had_rally Serve_from_code Rally_from_code
             Sample.possible_faults "A" "B" true "n" "4f1b2*" " " "  " None
             H1 H2)).
Defined.

Lemma bad_score_row_is_skipped_witness :
  Datasets.row_stats Sample.calculate_stats Sample.bad_row = Ok tt /\
  Datasets.row_score Sample.ParsedStringScore Sample.bad_row
    = Raise Datasets.BadFormattingException /\
  Sample.turn_into_matches
    ([Sample.good_row] ++ Sample.bad_row :: [Sample.good_row])
  = Sample.turn_into_matches ([Sample.good_row] ++ [Sample.good_row]).
Proof.
  assert (Datasets.row_stats Sample.calculate_stats Sample.bad_row = Ok tt)
    as H1 by reflexivity.
  assert (Datasets.row_score Sample.ParsedStringScore Sample.bad_row
          = Raise Datasets.BadFormattingException) as H2 by reflexivity.
  split; [exact H1|]. split; [exact H2|].
  exact (DatasetsFacts.bad_score_row_is_skipped
           Sample.calculate_stats Sample.ParsedStringScore
           (fun score : list string => score) Sample.CompletedMatch
           [Sample.good_row] [Sample.good_row] Sample.bad_row tt H1 H2).
Defined.

Lemma short_score_row_is_skipped_witness :
  Datasets.row_stats Sample.calculate_stats Sample.short_row = Ok tt /\
  Datasets.row_score Sample.ParsedStringScore Sample.short_row = Ok ["6-4"] /\
  length ["6-4"] < 2 /\
  Sample.turn_into_matches
    ([Sample.good_row] ++ Sample.short_row :: [Sample.good_row])
  = Sample.turn_into_matches ([Sample.good_row] ++ [Sample.good_row]).
Proof.
  assert (Datasets.row_stats Sample.calculate_stats Sample.short_row = Ok tt)
    as H1 by reflexivity.
  assert (Datasets.row_score Sample.ParsedStringScore Sample.short_row
          = Ok ["6-4"]) as H2 by reflexivity.
  assert (length ["6-4"] < 2) as H3 by (simpl; lia).
  repeat (split; [assumption|]).
  exact (proj1 (DatasetsFacts.short_score_row_is_skipped
           Sample.calculate_stats Sample.ParsedStringScore
           (fun score : list string => score) Sample.CompletedMatch
           [Sample.good_row] [Sample.good_row] Sample.short_row tt ["6-4"]
           H1 H2 H3)).
Defined.

Lemma fault_needs_second_code_witness :
  (String.length (strip "4n") =? 1)%nat = false /\
  Serve_from_code (strip "4n") "A" true
    = Ok (mkServe "A" true "4n" (Some "n") (Zone "4") Fault, "") /\
  was_fault (mkServe "A" true "4n" (Some "n") (Zone "4") Fault) = true /\
  Sample.from_code "A" "B" true "4n" None
    = Raise (AttributeError none_has_no_strip).
Proof.
  assert ((String.length (strip "4n") =? 1)%nat = false) as H1 by reflexivity.
  assert (Serve_from_code (strip "4n") "A" true
          = Ok (mkServe "A" true "4n" (Some "n") (Zone "4") Fault, ""))
    as H2 by reflexivity.
  assert (was_fault (mkServe "A" true "4n" (Some "n") (Zone "4") Fault) = true)
    as H3 by reflexivity.
  repeat (split; [assumption|]).
  exact (ChartingFacts.fault_needs_second_code
           was_fault had_rally Serve_from_code Rally_from_code
           Sample.possible_faults "A" "B" true "4n" _ "" H1 H2 H3).
Defined.

Lemma other_failures_stop_the_generator_witness :
  Datasets.row_stats Sample.calculate_stats (∅ : gmap string string)
    = Raise (Datasets.KeyError "winner") /\
  Sample.turn_into_matches [∅; Sample.good_row]
    = Abort (Datasets.KeyError "winner").
Proof.
  assert (Datasets.row_stats Sample.calculate_stats (∅ : gmap string string)
          = Raise (Datasets.KeyError "winner")) as H1 by reflexivity.
  split; [exact H1|].
  exact (DatasetsFacts.other_failures_stop_the_generator
           Sample.calculate_stats Sample.ParsedStringScore
           (fun score : list string => score) Sample.CompletedMatch
           ∅ [Sample.good_row] (Datasets.KeyError "winner") (or_introl H1)).
Defined.

(** Example 3 of the specification: an ace has no rally and no second
    serve. *)
Example from_code_ace :
  Sample.from_code "A" "B" true "6*" None
  = Ok (mkShotSequence "A" "B" true None false
          (Some (mkServe "A" true "6*" None (Zone "6") Ace)) None false false).
Proof. reflexivity. Qed.

(** Example 4 of the specification: three rally tokens give three shots,
    hit in turn, the returner first. *)
Example from_code_three_shots :
  (r ← Sample.from_code "A" "B" true "4f1b2f3*" None;
   Ok (option_map (fun rl => map shot_player (shots rl)) (rally r)))
  = Ok (Some ["B"; "A"; "B"]).
Proof. reflexivity. Qed.



Lemma bare_fault_letter_is_a_fault_witness :
  is_space "n" = false /\
  (String "n" "" ∉ ["S"; "R"; "P"; "Q"]) /\
  (String "n" "" ∈ Sample.possible_faults) /\
  Sample.from_code "A" "B" true "n" (Some " 4f1b2* ")
    = Ok Sample.second_serve_point /\
  first_serve Sample.second_serve_point = Some Sample.first_fault /\
  fault_kind Sample.first_fault = Some "n" /\
  direction Sample.first_fault = UnknownDirection /\
  exists ss, second_serve Sample.second_serve_point = Some ss.
Proof.
  assert (is_space "n" = false) as H1 by reflexivity.
  assert (String "n" "" ∉ ["S"; "R"; "P"; "Q"]) as H2
    by (apply PyFacts.str_in_false; reflexivity).
  assert (String "n" "" ∈ Sample.possible_faults) as H3
    by (apply PyFacts.str_in_true; reflexivity).
  assert (Sample.from_code "A" "B" true "n" (Some " 4f1b2* ")
          = Ok Sample.second_serve_point) as H4 by reflexivity.
  repeat (split; [assumption|]).
  assert (first_serve Sample.second_serve_point = Some Sample.first_fault /\
          exists ss, second_serve Sample.second_serve_point = Some ss) as H5.
  { exact (proj2 (proj2 (proj2 (proj2 (proj2
             (SpecModelFacts.bare_fault_letter_is_a_fault
                Sample.possible_faults Sample.in_play_kind Sample.is_shot_type
                Sample.is_outcome_marker Sample.is_depth_marker
                "A" "B" true "n" H1 H2 H3)))))
             (Some " 4f1b2* ") Sample.second_serve_point H4). }
  split; [exact (proj1 H5)|]. split; [reflexivity|]. split; [reflexivity|].
  exact (proj2 H5).
Defined.

(** The generator on the three sample rows: one match, for the first. *)
Example turn_into_matches_sample :
  yielded (Sample.turn_into_matches
             [Sample.good_row; Sample.bad_row; Sample.short_row])
  = [("A", "B", "2017-01-02", None, ["6-4"; "6-3"])].
Proof. reflexivity. Qed.

End Examples.

(** ** What [from_code] returns, and how it is printed *)

Module PrintingFacts.

Import Charting Printing PyFacts ChartingFacts.

Section Decoder.

Context {Player Serve Rally Shot E : Type}.
Variable was_fault : Serve -> bool.
Variable had_rally : Serve -> bool.
Variable Serve_from_code : string -> Player -> bool -> result E (Serve * string).
Variable Rally_from_code : string -> Player -> Player -> result E Rally.
Variable possible_faults : list string.
Variable shots : Rally -> list Shot.

Local Abbreviation parse_serves :=
  (Charting.parse_serves was_fault had_rally Serve_from_code Rally_from_code).
Local Abbreviation from_code :=
  (Charting.from_code was_fault had_rally Serve_from_code Rally_from_code
     possible_faults).

(** The four forms of a returned sequence. *)
Lemma from_code_forms (s r : Player) (w : bool) (fc : string)
    (sc : option string) seq :
  from_code s r w fc sc = Ok seq ->
  seq = mkShotSequence s r w None true None None false false \/
  seq = mkShotSequence s r w None false None None true false \/
  seq = mkShotSequence s r w None false None None false true \/
  exists fs,
    seq = mkShotSequence s r w (rally seq) false (Some fs) (second_serve seq)
            false false /\
    ((was_fault fs = true /\ exists ss, second_serve seq = Some ss) \/
     (was_fault fs = false /\ second_serve seq = None)).
Proof.
  unfold Charting.from_code.
  assert (forall code, parse_serves s r w code sc = Ok seq ->
            exists fs,
              seq = mkShotSequence s r w (rally seq) false (Some fs)
                      (second_serve seq) false false /\
              ((was_fault fs = true /\ exists ss, second_serve seq = Some ss) \/
               (was_fault fs = false /\ second_serve seq = None))) as Hfull.
  { intros code H.
    apply parse_serves_ok in H as (fs & rem & H1 & Hseq & Hb).
    exists fs. split; [exact Hseq|].
    destruct Hb as [(Hf & code2 & ss & rem2 & _ & H2 & Hss & _)|(Hf & Hss & _)].
    - left. split; [exact Hf|]. exists ss. exact Hss.
    - right. auto. }
  destruct (String.length (strip fc) =? 1)%nat.
  - destruct (str_in (strip fc) ["S"; "R"]); [intros [= <-]; auto|].
    destruct (String.eqb (strip fc) "P"); [intros [= <-]; auto|].
    destruct (String.eqb (strip fc) "Q"); [intros [= <-]; auto|].
    destruct (str_in (strip fc) possible_faults); [|discriminate].
    intros H. right. right. right. exact (Hfull _ H).
  - intros H. right. right. right. exact (Hfull _ H).
Qed.

(** A sequence returned by [from_code] records the server, the returner and
    [server_won] it was called with, and has exactly one of the four shapes:
    of [not_coded], [server_lost_outright], [server_won_outright] and the
    presence of a first serve, one holds and the others do not; without a
    first serve there is no second serve and no rally. *)
Theorem from_code_result_has_one_shape (s r : Player) (w : bool)
    (fc : string) (sc : option string) seq :
  from_code s r w fc sc = Ok seq ->
  server seq = s /\ returner seq = r /\ server_won seq = w /\
  Nat.b2n (not_coded seq) + Nat.b2n (server_lost_outright seq)
  + Nat.b2n (server_won_outright seq)
  + Nat.b2n (bool_decide (first_serve seq <> None)) = 1 /\
  (first_serve seq = None -> second_serve seq = None /\ rally seq = None).
Proof.
  intros H.
  destruct (from_code_forms s r w fc sc seq H)
    as [->|[->|[->|(fs & Hseq & _)]]];
    try (repeat split; reflexivity).
  rewrite Hseq. simpl. repeat split; discriminate.
Qed.


End Decoder.

End PrintingFacts.

(** ** More on the row loop *)

Module RowFacts.

Import Datasets.

Section TurnIntoMatches.

Context {V E Stats Score SetScore Match : Type}.
Variable calculate_stats : V -> V -> gmap string V -> result (exn E) Stats.
Variable ParsedStringScore : V -> V -> V -> result (exn E) Score.
Variable sets : Score -> list SetScore.
Variable CompletedMatch :
  V -> V -> V -> V -> Stats -> V -> option V -> V -> option (list (V * V)) ->
  Score -> result (exn E) Match.

Local Abbreviation row_stats := (Datasets.row_stats calculate_stats).
Local Abbreviation row_score := (Datasets.row_score ParsedStringScore).
Local Abbreviation row_match := (Datasets.row_match CompletedMatch).
Local Abbreviation turn_into_matches :=
  (Datasets.turn_into_matches calculate_stats ParsedStringScore sets
     CompletedMatch).

Lemma item_ok (row : gmap string V) (k : string) (v : V) :
  item (E := E) row k = Ok v <-> row !! k = Some v.
Proof.
  unfold item, getitem. destruct (row !! k); split; congruence.
Qed.

Lemma item_missing (row : gmap string V) (k : string) :
  row !! k = None -> item (E := E) row k = Raise (KeyError k).
Proof. unfold item, getitem. intros ->. reflexivity. Qed.

(** The matches come in the order of the rows, at most one for a row: they
    are built, one each, from a sub-list of the records, every row of which
    has a parsed score of at least two sets. *)
Theorem matches_follow_the_rows (records : list (gmap string V)) :
  exists rows,
    sublist rows records /\
    Forall2
      (fun m row =>
         exists stats score,
           row_stats row = Ok stats /\
           row_score row = Ok score /\
           2 <= length (sets score) /\
           row_match row stats score = Ok m)
      (yielded (turn_into_matches records)) rows.
Proof.
  induction records as [|row records (rows & Hsub & Hall)]; simpl.
  - exists []. split; constructor.
  - assert (exists rows0,
              sublist rows0 (row :: records) /\
              Forall2
                (fun m row0 =>
                   exists stats score,
                     row_stats row0 = Ok stats /\
                     row_score row0 = Ok score /\
                     2 <= length (sets score) /\
                     row_match row0 stats score = Ok m)
                (yielded (turn_into_matches records)) rows0) as Hskip.
    { exists rows. split; [apply sublist_cons, Hsub|exact Hall]. }
    assert (exists rows0,
              sublist rows0 (row :: records) /\
              Forall2
                (fun (m : Match) (row0 : gmap string V) =>
                   exists stats score,
                     row_stats row0 = Ok stats /\
                     row_score row0 = Ok score /\
                     2 <= length (sets score) /\
                     row_match row0 stats score = Ok m)
                [] rows0) as Hnone.
    { exists []. split; [apply sublist_nil_l|constructor]. }
    destruct (row_stats row) as [stats|e] eqn:Hstats; [|exact Hnone].
    destruct (row_score row) as [score|e] eqn:Hscore.
    2:{ destruct e; [exact Hnone|exact Hskip|exact Hnone]. }
    destruct (length (sets score) <? 2)%nat eqn:Hlen; [exact Hskip|].
    apply Nat.ltb_ge in Hlen.
    destruct (row_match row stats score) as [m|e] eqn:Hmatch; [|exact Hnone].
    exists (row :: rows). split; [apply sublist_skip, Hsub|].
    simpl. constructor; [|exact Hall]. exists stats, score. auto.
Qed.

(** For a row without the column [odds_winner], and for given statistics,
    the match is built with [odds=None], and what the row holds under
    [winner_odds] and [loser_odds] changes no argument of [CompletedMatch]. *)
Lemma row_match_without_odds_winner (row : gmap string V)
    (stats : Stats) (score : Score) :
  row !! "odds_winner" = None ->
  (forall m, row_match row stats score = Ok m ->
     exists p1 p2 date tournament surface round,
       CompletedMatch p1 p2 date p1 stats tournament surface round None score
       = Ok m) /\
  (forall a b,
     row_match (<["winner_odds" := a]> (<["loser_odds" := b]> row)) stats score
     = row_match row stats score).
Proof.
  intros Hodds. split.
  - intros m. unfold Datasets.row_match, has_key. rewrite Hodds.
    rewrite (bool_decide_eq_false_2 (is_Some None)) by (intros [? ?]; discriminate).
    unfold_result.
    destruct (item row "winner") as [p1|] eqn:H1; [|discriminate].
    destruct (item row "loser") as [p2|]; [|discriminate].
    destruct (item row "start_date") as [date|]; [|discriminate].
    destruct (item row "tournament_name") as [tn|]; [|discriminate].
    destruct (item row "round_number") as [rn|]; [|discriminate].
    intros H. eauto 10.
  - intros a b. unfold Datasets.row_match, has_key.
    rewrite !(lookup_insert_ne _ _ "odds_winner") by discriminate.
    rewrite Hodds.
    rewrite (bool_decide_eq_false_2 (is_Some None)) by (intros [? ?]; discriminate).
    unfold item, getitem.
    rewrite !lookup_insert_ne by discriminate. reflexivity.
Qed.


(** A row with the column [odds_winner] but without [winner_odds] stops the
    generator with the [KeyError] of [row['winner_odds']], once its score
    has at least two sets. *)
Theorem odds_winner_without_winner_odds (row : gmap string V)
    (post : list (gmap string V)) (stats : Stats) (score : Score) (x : V) :
  row_stats row = Ok stats ->
  row_score row = Ok score ->
  2 <= length (sets score) ->
  row !! "odds_winner" = Some x ->
  row !! "winner_odds" = None ->
  turn_into_matches (row :: post) = Abort (KeyError "winner_odds").
Proof.
  intros Hstats Hscore Hlen Hodds Hwo. simpl. rewrite Hstats, Hscore.
  apply Nat.ltb_ge in Hlen. rewrite Hlen.
  assert (exists winner, item (E := E) row "winner" = Ok winner) as [winner Hw].
  { unfold Datasets.row_stats in Hstats. unfold_result.
    destruct (item row "winner") as [winner|]; [eauto|discriminate]. }
  unfold Datasets.row_match, has_key. rewrite Hodds.
  rewrite (bool_decide_eq_true_2 (is_Some (Some x))) by eauto.
  unfold_result. rewrite Hw, (item_missing row "winner_odds" Hwo).
  reflexivity.
Qed.

End TurnIntoMatches.

End RowFacts.

(** ** The dates of [datetime.date] *)

Module PyDateFacts.

Import PyDate.

(** For each year from 1 to 9999, the 364th day after January 1st is
    December 31st, or December 30th in a leap year. *)
Lemma year_bounds_checked :
  forallb
    (fun n =>
       match Queries.tour_year_bounds (Z.of_nat n) with
       | Ok (first, last) =>
           String.eqb first (isoformat (Z.of_nat n) 1 1)
           && String.eqb last
                (isoformat (Z.of_nat n) 12
                   (if is_leap (Z.of_nat n) then 30 else 31))
       | Raise _ => false
       end)
    (seq 1 (Z.to_nat 9999)) = true.
Proof. vm_compute. reflexivity. Qed.

(** The window of [calculate_tour_average] for a year from 1 to 9999: it
    starts on January 1st and ends 364 days later, on December 31st, or on
    December 30th when the year is a leap year, so that the last day of a
    leap year is outside the slice. *)
Theorem tour_year_window (year : Z) :
  (1 <= year <= 9999)%Z ->
  Queries.tour_year_bounds year
  = Ok (isoformat year 1 1,
        isoformat year 12 (if is_leap year then 30 else 31)%Z).
Proof.
  intros Hy. pose proof year_bounds_checked as Hall.
  rewrite forallb_forall in Hall.
  specialize (Hall (Z.to_nat year)).
  rewrite Z2Nat.id in Hall by lia.
  assert (In (Z.to_nat year) (seq 1 (Z.to_nat 9999))) as Hin by (apply in_seq; lia).
  specialize (Hall Hin).
  destruct (Queries.tour_year_bounds year) as [[first last]|e];
    [|discriminate].
  apply andb_true_iff in Hall as [H1 H2].
  apply String.eqb_eq in H1, H2. subst. reflexivity.
Qed.

(** Outside the years 1 to 9999 there is no first of January: the year is
    out of range, or does not even fit a C [int]. *)
Lemma date_out_of_range (year : Z) :
  (year < 1 \/ 9999 < year)%Z ->
  date year 1 1
  = Raise (if fits_c_int year then ValueError else OverflowError).
Proof.
  intros Hy. unfold date, MINYEAR, MAXYEAR.
  change (fits_c_int 1) with true. rewrite !andb_true_r.
  destruct (fits_c_int year); [|reflexivity]. cbv iota. simpl negb at 1.
  cbv iota.
  destruct ((1 <=? year)%Z && (year <=? 9999)%Z) eqn:Hr; [|reflexivity].
  apply andb_true_iff in Hr as [?%Z.leb_le ?%Z.leb_le]. lia.
Qed.

End PyDateFacts.

(** ** The queries of [Dataset] *)

Module QueriesFacts.

Import Datasets Queries.

Lemma trace_app_stop {E A} (t : trace E A) : trace_app t Stop = t.
Proof. induction t; simpl; congruence. Qed.

Lemma yielded_trace_app {E A} (t1 t2 : trace E A) :
  yielded (trace_app t1 t2)
  = (yielded t1 ++ (if aborts t1 then [] else yielded t2))%list.
Proof. induction t1; simpl; [reflexivity|congruence|reflexivity]. Qed.

Section RowLoop.

Context {V E Stats Score SetScore Match : Type}.
Variable calculate_stats : V -> V -> gmap string V -> result (exn E) Stats.
Variable ParsedStringScore : V -> V -> V -> result (exn E) Score.
Variable sets : Score -> list SetScore.
Variable CompletedMatch :
  V -> V -> V -> V -> Stats -> V -> option V -> V -> option (list (V * V)) ->
  Score -> result (exn E) Match.

Local Abbreviation turn_into_matches :=
  (Datasets.turn_into_matches calculate_stats ParsedStringScore sets
     CompletedMatch).

(** The row loop on two lists of records put together is the loop on the
    first followed by the loop on the second, as [itertools.chain] runs them:
    the matches of the second list are yielded after those of the first, and
    only if the first did not stop with an exception. *)
Theorem turn_into_matches_app (records1 records2 : list (gmap string V)) :
  turn_into_matches (records1 ++ records2)
  = trace_app (turn_into_matches records1) (turn_into_matches records2) /\
  yielded (turn_into_matches (records1 ++ records2))
  = (yielded (turn_into_matches records1)
     ++ (if aborts (turn_into_matches records1) then []
         else yielded (turn_into_matches records2)))%list.
Proof.
  assert (turn_into_matches (records1 ++ records2)
          = trace_app (turn_into_matches records1)
              (turn_into_matches records2)) as Happ.
  { induction records1 as [|row records1 IH]; simpl; [reflexivity|].
    destruct (Datasets.row_stats calculate_stats row); [|reflexivity].
    destruct (Datasets.row_score ParsedStringScore row) as [score|e].
    - destruct (length (sets score) <? 2)%nat; [exact IH|].
      destruct (Datasets.row_match CompletedMatch row _ score); simpl;
        [rewrite IH|]; reflexivity.
    - destruct e; [reflexivity|exact IH|reflexivity]. }
  split; [exact Happ|]. rewrite Happ. apply yielded_trace_app.
Qed.

End RowLoop.

Section Dataset.

Context {V E DF Series Avg : Type}.
Context {Stats Score SetScore Match : Type}.
Variable calculate_stats :
  V -> V -> gmap string V -> result (exn (foreign E)) Stats.
Variable ParsedStringScore : V -> V -> V -> result (exn (foreign E)) Score.
Variable sets : Score -> list SetScore.
Variable CompletedMatch :
  V -> V -> V -> V -> Stats -> V -> option V -> V -> option (list (V * V)) ->
  Score -> result (exn (foreign E)) Match.
Variable get_stats_df : result (exn (foreign E)) DF.
Variable get_player_df : result (exn (foreign E)) DF.
Variable set_index : DF -> string -> bool -> result (exn (foreign E)) DF.
Variable sort_index : DF -> result (exn (foreign E)) DF.
Variable slice_from : DF -> Z -> result (exn (foreign E)) DF.
Variable slice_to : DF -> Z -> result (exn (foreign E)) DF.
Variable slice_between : DF -> string -> string -> result (exn (foreign E)) DF.
Variable before_date_or_round : DF -> Z -> V -> result (exn (foreign E)) DF.
Variable shape_len : DF -> nat.
Variable frame_of_series : DF -> result (exn (foreign E)) DF.
Variable loc_list : DF -> V -> result (exn (foreign E)) DF.
Variable loc : DF -> string -> result (exn (foreign E)) DF.
Variable empty_frame : DF.
Variable len : DF -> nat.
Variable to_dict_records : DF -> result (exn (foreign E)) (list (gmap string V)).
Variable xs : DF -> V -> string -> result (exn (foreign E)) DF.
Variable after_date : DF -> Z -> result (exn (foreign E)) DF.
Variable before_date : DF -> Z -> result (exn (foreign E)) DF.
Variable serve_averages : DF -> result (exn (foreign E)) Series.
Variable mean : Series -> result (exn (foreign E)) Avg.

Local Abbreviation reduce_surface :=
  (Queries.reduce_surface set_index loc_list empty_frame).
Local Abbreviation reduce_to_subset :=
  (Queries.reduce_to_subset set_index sort_index slice_from slice_to
     before_date_or_round shape_len frame_of_series loc_list empty_frame).
Local Abbreviation turn_frame_into_matches :=
  (Queries.turn_frame_into_matches calculate_stats ParsedStringScore sets
     CompletedMatch to_dict_records).
Local Abbreviation get_matches_between :=
  (Queries.get_matches_between calculate_stats ParsedStringScore sets
     CompletedMatch get_stats_df set_index sort_index slice_from slice_to
     before_date_or_round shape_len frame_of_series loc_list empty_frame len
     to_dict_records).
Local Abbreviation get_player_matches :=
  (Queries.get_player_matches calculate_stats ParsedStringScore sets
     CompletedMatch get_player_df set_index sort_index slice_from slice_to
     before_date_or_round shape_len frame_of_series loc_list empty_frame
     to_dict_records xs).
Local Abbreviation get_tournament_serve_average :=
  (Queries.get_tournament_serve_average get_stats_df set_index loc after_date
     before_date serve_averages mean).
Local Abbreviation calculate_tour_average :=
  (Queries.calculate_tour_average get_stats_df set_index slice_between
     serve_averages mean).

Lemma bind_ok {A} (m : result (exn (foreign E)) A) : (a ← m; Ok a) = m.
Proof. destruct m; reflexivity. Qed.

(** The surface is looked up in what the other filters leave. *)
Lemma reduce_to_subset_surface (df : DF) (min_date max_date : option Z)
    (surface before_round : option V) :
  reduce_to_subset df min_date max_date surface before_round
  = (df' ← reduce_to_subset df min_date max_date None before_round;
     reduce_surface df' surface).
Proof.
  unfold Queries.reduce_to_subset. unfold_result.
  destruct (Queries.reduce_dates _ _ _ _ _ df min_date max_date before_round)
    as [df1|e]; [|reflexivity].
  destruct (if (shape_len df1 =? 1)%nat then frame_of_series df1 else Ok df1);
    reflexivity.
Qed.

(** [before_round] is only looked at together with [max_date]: without a
    [max_date], [reduce_to_subset] gives the same frame, and
    [get_player_matches] the same matches, for every [before_round]. *)
Theorem before_round_needs_max_date (df : DF) (player_name : V)
    (min_date : option Z) (surface before_round before_round' : option V) :
  reduce_to_subset df min_date None surface before_round
  = reduce_to_subset df min_date None surface before_round' /\
  get_player_matches player_name min_date None surface before_round
  = get_player_matches player_name min_date None surface before_round'.
Proof.
  split; [reflexivity|]. unfold Queries.get_player_matches.
  destruct get_player_df as [by_players|e]; [|reflexivity]. unfold_result.
  assert (forall levels,
            Queries.player_generators calculate_stats ParsedStringScore sets
              CompletedMatch set_index sort_index slice_from slice_to
              before_date_or_round shape_len frame_of_series loc_list
              empty_frame to_dict_records xs by_players player_name min_date
              None surface before_round levels
            = Queries.player_generators calculate_stats ParsedStringScore sets
                CompletedMatch set_index sort_index slice_from slice_to
                before_date_or_round shape_len frame_of_series loc_list
                empty_frame to_dict_records xs by_players player_name min_date
                None surface before_round' levels) as Hgen.
  { induction levels as [|level levels IH]; simpl; [reflexivity|].
    destruct (xs by_players player_name level) as [cur|e].
    - rewrite IH. reflexivity.
    - destruct e; try reflexivity. exact IH. }
  rewrite Hgen. reflexivity.
Qed.

(** Asking [get_matches_between] for a surface that no match of the date
    range was played on gives no match and no error: the [KeyError] of the
    surface lookup is turned into the empty DataFrame, for which the empty
    list is returned. *)
Theorem unknown_surface_gives_no_matches (df df1 df2 : DF)
    (min_date max_date : option Z) (surface : V) (k : string) :
  get_stats_df = Ok df ->
  reduce_to_subset df min_date max_date None None = Ok df1 ->
  set_index df1 "surface" false = Ok df2 ->
  loc_list df2 surface = Raise (KeyError k) ->
  len empty_frame = 0 ->
  get_matches_between min_date max_date (Some surface) = Ok Stop.
Proof.
  intros Hdf H1 H2 H3 Hlen. unfold Queries.get_matches_between.
  rewrite Hdf. unfold_result.
  rewrite reduce_to_subset_surface, H1. unfold_result.
  unfold Queries.reduce_surface. unfold_result. rewrite H2, H3, Hlen.
  reflexivity.
Qed.

(** A player who is found neither among the winners nor among the losers
    has no matches: [get_player_matches] returns an iterator that yields
    nothing, and raises nothing. *)
Theorem unknown_player_has_no_matches (by_players : DF) (player_name : V)
    (min_date max_date : option Z) (surface before_round : option V)
    (k1 k2 : string) :
  get_player_df = Ok by_players ->
  xs by_players player_name "winner" = Raise (KeyError k1) ->
  xs by_players player_name "loser" = Raise (KeyError k2) ->
  get_player_matches player_name min_date max_date surface before_round
  = Ok Stop.
Proof.
  intros Hdf Hw Hl. unfold Queries.get_player_matches. rewrite Hdf.
  unfold_result. simpl. rewrite Hw, Hl. reflexivity.
Qed.


(** Each of the two caching methods changes the dataset at most at the key
    it was asked for, in its own cache: a call that raises leaves the
    dataset as it was, and a call that returns leaves the returned value
    under the key and every other entry of both caches as it was. *)
Theorem caches_change_only_at_the_key (self : Dataset Avg) :
  (forall (tournament_name : string) (min_date max_date : option Z),
     let call := get_tournament_serve_average self tournament_name min_date
                   max_date in
     tour_averages (snd call) = tour_averages self /\
     match fst call with
     | Raise _ => snd call = self
     | Ok v =>
         tournament_averages (snd call)
           !! (tournament_name, min_date, max_date) = Some v /\
         forall key, key <> (tournament_name, min_date, max_date) ->
           tournament_averages (snd call) !! key
           = tournament_averages self !! key
     end) /\
  (forall year : Z,
     let call := calculate_tour_average self year in
     tournament_averages (snd call) = tournament_averages self /\
     match fst call with
     | Raise _ => snd call = self
     | Ok v =>
         tour_averages (snd call) !! year = Some v /\
         forall key, key <> year ->
           tour_averages (snd call) !! key = tour_averages self !! key
     end).
Proof.
  split.
  - intros name min_date max_date. unfold Queries.get_tournament_serve_average.
    destruct (tournament_averages self !! (name, min_date, max_date)) as [v|]
      eqn:Hhit; simpl; [auto|].
    destruct (Queries.tournament_serve_averages _ _ _ _ _ _ name min_date
                max_date) as [averages|e]; simpl; [|auto].
    destruct (mean averages) as [m|e] eqn:Hmean; simpl; [|auto].
    split; [reflexivity|]. split.
    + apply lookup_insert_eq.
    + intros key Hne. apply lookup_insert_ne. congruence.
  - intros year. unfold Queries.calculate_tour_average.
    destruct (tour_averages self !! year) as [v|] eqn:Hhit; simpl; [auto|].
    destruct (averages ← Queries.tour_serve_averages _ _ _ _ year;
              mean averages) as [v|e]; simpl; [|auto].
    split; [reflexivity|]. split.
    + apply lookup_insert_eq.
    + intros key Hne. apply lookup_insert_ne. congruence.
Qed.

(** A year outside 1 to 9999 that is not cached makes
    [calculate_tour_average] raise what [date(year, 1, 1)] raises, once the
    frame has been fetched and indexed: [ValueError] for a year that fits a C
    [int], [OverflowError] for one that does not; nothing is cached. *)
Theorem tour_average_year_out_of_range (self : Dataset Avg) (year : Z)
    (df df' : DF) :
  tour_averages self !! year = None ->
  get_stats_df = Ok df ->
  set_index df "start_date" true = Ok df' ->
  (year < 1 \/ 9999 < year)%Z ->
  calculate_tour_average self year
  = (Raise (OtherException
              (DateError (if PyDate.fits_c_int year then PyDate.ValueError
                          else PyDate.OverflowError))), self).
Proof.
  intros Hmiss Hdf Hidx Hy. unfold Queries.calculate_tour_average.
  rewrite Hmiss. unfold Queries.tour_serve_averages, Queries.tour_year_bounds.
  rewrite Hdf. unfold_result. rewrite Hidx.
  rewrite (PyDateFacts.date_out_of_range year Hy). reflexivity.
Qed.

End Dataset.

Section Staleness.

(** Two states of the data behind one dataset object: the collaborators at
    the time of a first call, and at the time of a later one. *)
Context {E DF Series Avg : Type}.
Variable get_stats_df get_stats_df' : result (exn (foreign E)) DF.
Variable set_index set_index' : DF -> string -> bool -> result (exn (foreign E)) DF.
Variable slice_between slice_between' :
  DF -> string -> string -> result (exn (foreign E)) DF.
Variable loc loc' : DF -> string -> result (exn (foreign E)) DF.
Variable after_date after_date' : DF -> Z -> result (exn (foreign E)) DF.
Variable before_date before_date' : DF -> Z -> result (exn (foreign E)) DF.
Variable serve_averages serve_averages' : DF -> result (exn (foreign E)) Series.
Variable mean mean' : Series -> result (exn (foreign E)) Avg.

(** Once [get_tournament_serve_average] has returned a value for a
    tournament and a date range, every later call for them returns that
    value and leaves the dataset as it is, whatever the data have become:
    the cache is never refreshed. *)
Theorem tournament_average_is_cached (self self' : Dataset Avg)
    (tournament_name : string) (min_date max_date : option Z) (v : Avg) :
  Queries.get_tournament_serve_average get_stats_df set_index loc after_date
    before_date serve_averages mean self tournament_name min_date max_date
  = (Ok v, self') ->
  Queries.get_tournament_serve_average get_stats_df' set_index' loc'
    after_date' before_date' serve_averages' mean' self' tournament_name
    min_date max_date
  = (Ok v, self').
Proof.
  unfold Queries.get_tournament_serve_average.
  destruct (tournament_averages self !! (tournament_name, min_date, max_date))
    as [v0|] eqn:Hhit.
  - intros [= <- <-]. rewrite Hhit. reflexivity.
  - destruct (Queries.tournament_serve_averages _ _ _ _ _ _ _ _ _)
      as [averages|e]; [|discriminate].
    destruct (mean averages) as [m|e] eqn:Hmean; [|discriminate].
    intros [= <- <-]. simpl.
    rewrite lookup_insert_eq. reflexivity.
Qed.

(** The same for [calculate_tour_average] and a year. *)
Theorem tour_average_is_cached (self self' : Dataset Avg) (year : Z)
    (v : Avg) :
  Queries.calculate_tour_average get_stats_df set_index slice_between
    serve_averages mean self year
  = (Ok v, self') ->
  Queries.calculate_tour_average get_stats_df' set_index' slice_between'
    serve_averages' mean' self' year
  = (Ok v, self').
Proof.
  unfold Queries.calculate_tour_average.
  destruct (tour_averages self !! year) as [v0|] eqn:Hhit.
  - intros [= <- <-]. rewrite Hhit. reflexivity.
  - destruct (averages ← Queries.tour_serve_averages _ _ _ _ year;
              mean averages) as [m|e]; [|discriminate].
    intros [= <- <-]. simpl. rewrite lookup_insert_eq. reflexivity.
Qed.

End Staleness.

End QueriesFacts.

(** ** Examples on the sample frames *)

Module MoreExamples.

Import Charting SpecModel Printing Datasets Queries.

Local Abbreviation Serve_from_code :=
  (@SpecModel.Serve_from_code string Sample.possible_faults Sample.in_play_kind).
Local Abbreviation Rally_from_code :=
  (@SpecModel.Rally_from_code string Sample.is_shot_type
     Sample.is_outcome_marker Sample.is_depth_marker).

Lemma from_code_result_has_one_shape_witness :
  Sample.from_code "A" "B" true "n" (Some " 4f1b2* ")
    = Ok Sample.second_serve_point /\
  server Sample.second_serve_point = "A" /\
  returner Sample.second_serve_point = "B" /\
  server_won Sample.second_serve_point = true /\
  Nat.b2n (not_coded Sample.second_serve_point)
  + Nat.b2n (server_lost_outright Sample.second_serve_point)
  + Nat.b2n (server_won_outright Sample.second_serve_point)
  + Nat.b2n (bool_decide (first_serve Sample.second_serve_point <> None)) = 1 /\
  (first_serve Sample.second_serve_point = None ->
   second_serve Sample.second_serve_point = None /\
   rally Sample.second_serve_point = None).
Proof.
  assert (Sample.from_code "A" "B" true "n" (Some " 4f1b2* ")
          = Ok Sample.second_serve_point) as H1 by reflexivity.
  split; [exact H1|].
  exact (PrintingFacts.from_code_result_has_one_shape
           was_fault had_rally Serve_from_code Rally_from_code
           Sample.possible_faults "A" "B" true "n" (Some " 4f1b2* ")
           Sample.second_serve_point H1).
Defined.



Lemma odds_winner_without_winner_odds_witness :
  Datasets.row_stats Sample.calculate_stats SampleFrames.odds_row = Ok tt /\
  Datasets.row_score Sample.ParsedStringScore SampleFrames.odds_row
    = Ok ["6-4"; "6-3"] /\
  2 <= length ["6-4"; "6-3"] /\
  SampleFrames.odds_row !! "odds_winner" = Some "1.5" /\
  SampleFrames.odds_row !! "winner_odds" = None /\
  Sample.turn_into_matches [SampleFrames.odds_row; Sample.good_row]
  = Abort (KeyError "winner_odds").
Proof.
  assert (Datasets.row_stats Sample.calculate_stats SampleFrames.odds_row
          = Ok tt) as H1 by reflexivity.
  assert (Datasets.row_score Sample.ParsedStringScore SampleFrames.odds_row
          = Ok ["6-4"; "6-3"]) as H2 by reflexivity.
  assert (2 <= length ["6-4"; "6-3"]) as H3 by (simpl; lia).
  assert (SampleFrames.odds_row !! "odds_winner" = Some "1.5") as H4
    by reflexivity.
  assert (SampleFrames.odds_row !! "winner_odds" = None) as H5 by reflexivity.
  repeat (split; [assumption|]).
  exact (RowFacts.odds_winner_without_winner_odds
           Sample.calculate_stats Sample.ParsedStringScore
           (fun score : list string => score) Sample.CompletedMatch
           SampleFrames.odds_row [Sample.good_row] tt ["6-4"; "6-3"] "1.5"
           H1 H2 H3 H4 H5).
Defined.

Lemma unknown_surface_gives_no_matches_witness :
  SampleFrames.get_stats_df = Ok SampleFrames.stats_df /\
  SampleFrames.reduce_to_subset SampleFrames.stats_df None None None None
    = Ok SampleFrames.stats_df /\
  SampleFrames.set_index SampleFrames.stats_df "surface" false
    = Ok SampleFrames.stats_df /\
  SampleFrames.loc_list SampleFrames.stats_df "Grass"
    = Raise (KeyError "Grass") /\
  SampleFrames.len SampleFrames.empty_frame = 0 /\
  SampleFrames.get_matches_between None None (Some "Grass") = Ok Stop.
Proof.
  assert (SampleFrames.get_stats_df = Ok SampleFrames.stats_df) as H1
    by reflexivity.
  assert (SampleFrames.reduce_to_subset SampleFrames.stats_df None None None
            None = Ok SampleFrames.stats_df) as H2 by reflexivity.
  assert (SampleFrames.set_index SampleFrames.stats_df "surface" false
          = Ok SampleFrames.stats_df) as H3 by reflexivity.
  assert (SampleFrames.loc_list SampleFrames.stats_df "Grass"
          = Raise (KeyError "Grass")) as H4 by reflexivity.
  assert (SampleFrames.len SampleFrames.empty_frame = 0) as H5 by reflexivity.
  repeat (split; [assumption|]).
  exact (QueriesFacts.unknown_surface_gives_no_matches
           SampleFrames.calculate_stats SampleFrames.ParsedStringScore
           (fun score : list string => score) SampleFrames.CompletedMatch
           SampleFrames.get_stats_df SampleFrames.set_index
           SampleFrames.sort_index SampleFrames.slice_from
           SampleFrames.slice_to SampleFrames.before_date_or_round
           SampleFrames.shape_len SampleFrames.frame_of_series
           SampleFrames.loc_list SampleFrames.empty_frame SampleFrames.len
           SampleFrames.to_dict_records
           SampleFrames.stats_df SampleFrames.stats_df SampleFrames.stats_df
           None None "Grass" "Grass" H1 H2 H3 H4 H5).
Defined.

Lemma unknown_player_has_no_matches_witness :
  SampleFrames.get_player_df = Ok SampleFrames.stats_df /\
  SampleFrames.xs SampleFrames.stats_df "Z" "winner" = Raise (KeyError "Z") /\
  SampleFrames.xs SampleFrames.stats_df "Z" "loser" = Raise (KeyError "Z") /\
  SampleFrames.get_player_matches "Z" None None None None = Ok Stop.
Proof.
  assert (SampleFrames.get_player_df = Ok SampleFrames.stats_df) as H1
    by reflexivity.
  assert (SampleFrames.xs SampleFrames.stats_df "Z" "winner"
          = Raise (KeyError "Z")) as H2 by reflexivity.
  assert (SampleFrames.xs SampleFrames.stats_df "Z" "loser"
          = Raise (KeyError "Z")) as H3 by reflexivity.
  repeat (split; [assumption|]).
  exact (QueriesFacts.unknown_player_has_no_matches
           SampleFrames.calculate_stats SampleFrames.ParsedStringScore
           (fun score : list string => score) SampleFrames.CompletedMatch
           SampleFrames.get_player_df SampleFrames.set_index
           SampleFrames.sort_index SampleFrames.slice_from
           SampleFrames.slice_to SampleFrames.before_date_or_round
           SampleFrames.shape_len SampleFrames.frame_of_series
           SampleFrames.loc_list SampleFrames.empty_frame
           SampleFrames.to_dict_records SampleFrames.xs
           SampleFrames.stats_df "Z" None None None None "Z" "Z" H1 H2 H3).
Defined.


Lemma tournament_average_is_cached_witness :
  SampleFrames.get_tournament_serve_average Queries.init "Doha" None None
    = (Ok SampleFrames.doha_average, SampleFrames.after_doha) /\
  Queries.get_tournament_serve_average SampleFrames.get_stats_df_gone
    SampleFrames.set_index SampleFrames.loc SampleFrames.after_date
    SampleFrames.before_date SampleFrames.serve_averages SampleFrames.mean
    SampleFrames.after_doha "Doha" None None
  = (Ok SampleFrames.doha_average, SampleFrames.after_doha).
Proof.
  assert (SampleFrames.get_tournament_serve_average Queries.init "Doha" None
            None
          = (Ok SampleFrames.doha_average, SampleFrames.after_doha)) as H1
    by reflexivity.
  split; [exact H1|].
  exact (QueriesFacts.tournament_average_is_cached
           SampleFrames.get_stats_df SampleFrames.get_stats_df_gone
           SampleFrames.set_index SampleFrames.set_index
           SampleFrames.loc SampleFrames.loc
           SampleFrames.after_date SampleFrames.after_date
           SampleFrames.before_date SampleFrames.before_date
           SampleFrames.serve_averages SampleFrames.serve_averages
           SampleFrames.mean SampleFrames.mean
           Queries.init SampleFrames.after_doha "Doha" None None
           SampleFrames.doha_average H1).
Defined.

Lemma tour_average_is_cached_witness :
  SampleFrames.calculate_tour_average Queries.init 2017
    = (Ok SampleFrames.doha_average, SampleFrames.after_2017) /\
  Queries.calculate_tour_average SampleFrames.get_stats_df_gone
    SampleFrames.set_index SampleFrames.slice_between
    SampleFrames.serve_averages SampleFrames.mean
    SampleFrames.after_2017 2017
  = (Ok SampleFrames.doha_average, SampleFrames.after_2017).
Proof.
  assert (SampleFrames.calculate_tour_average Queries.init 2017
          = (Ok SampleFrames.doha_average, SampleFrames.after_2017)) as H1
    by reflexivity.
  split; [exact H1|].
  exact (QueriesFacts.tour_average_is_cached
           SampleFrames.get_stats_df SampleFrames.get_stats_df_gone
           SampleFrames.set_index SampleFrames.set_index
           SampleFrames.slice_between SampleFrames.slice_between
           SampleFrames.serve_averages SampleFrames.serve_averages
           SampleFrames.mean SampleFrames.mean
           Queries.init SampleFrames.after_2017 2017
           SampleFrames.doha_average H1).
Defined.

Lemma tour_year_window_witness :
  (1 <= 2016 <= 9999)%Z /\
  Queries.tour_year_bounds 2016 = Ok ("2016-01-01", "2016-12-30").
Proof.
  assert (1 <= 2016 <= 9999)%Z as H1 by lia.
  split; [exact H1|].
  exact (PyDateFacts.tour_year_window 2016 H1).
Defined.

Lemma tour_average_year_out_of_range_witness :
  tour_averages (Queries.init (Avg := list (string * string))) !! 0%Z = None /\
  tour_averages (Queries.init (Avg := list (string * string)))
    !! 2147483648%Z = None /\
  SampleFrames.get_stats_df = Ok SampleFrames.stats_df /\
  SampleFrames.set_index SampleFrames.stats_df "start_date" true
    = Ok SampleFrames.stats_df /\
  (0 < 1 \/ 9999 < 0)%Z /\
  (2147483648 < 1 \/ 9999 < 2147483648)%Z /\
  SampleFrames.calculate_tour_average Queries.init 0
  = (Raise (OtherException (DateError PyDate.ValueError)), Queries.init) /\
  SampleFrames.calculate_tour_average Queries.init 2147483648
  = (Raise (OtherException (DateError PyDate.OverflowError)), Queries.init).
Proof.
  assert (tour_averages (Queries.init (Avg := list (string * string))) !! 0%Z
          = None) as H1 by reflexivity.
  assert (tour_averages (Queries.init (Avg := list (string * string)))
            !! 2147483648%Z = None) as H1' by reflexivity.
  assert (SampleFrames.get_stats_df = Ok SampleFrames.stats_df) as H2
    by reflexivity.
  assert (SampleFrames.set_index SampleFrames.stats_df "start_date" true
          = Ok SampleFrames.stats_df) as H3 by reflexivity.
  assert (0 < 1 \/ 9999 < 0)%Z as H4 by lia.
  assert (2147483648 < 1 \/ 9999 < 2147483648)%Z as H4' by lia.
  repeat (split; [assumption|]). split.
  - exact (QueriesFacts.tour_average_year_out_of_range
             SampleFrames.get_stats_df SampleFrames.set_index
             SampleFrames.slice_between SampleFrames.serve_averages
             SampleFrames.mean Queries.init 0 SampleFrames.stats_df
             SampleFrames.stats_df H1 H2 H3 H4).
  - exact (QueriesFacts.tour_average_year_out_of_range
             SampleFrames.get_stats_df SampleFrames.set_index
             SampleFrames.slice_between SampleFrames.serve_averages
             SampleFrames.mean Queries.init 2147483648 SampleFrames.stats_df
             SampleFrames.stats_df H1' H2 H3 H4').
Defined.

End MoreExamples.
